(** * Gemini text-to-speech page: the container encoder and the request component

    A shallow embedding of [testresults.py]: [convert_l16_to_wav], which wraps
    raw 16-bit PCM in a RIFF/WAVE container through Python's [wave] module, and
    [generate_speech], which posts one request and navigates the JSON reply.
    The library code the two functions call ([wave], [struct], [io.BytesIO],
    [base64], [requests]) is modelled after CPython 3.12 and requests 2.x, as
    far as the two functions reach into it.

    Python values are modelled as follows.
    - [bytes] is [list byte]; an [int] is a [Z] (Python integers do not wrap).
    - A [str] is a Rocq [string] holding the text's UTF-8 encoding.  The code
      only compares strings, searches ASCII needles in them, tests them for
      emptiness and hands them to the base64 decoder, and all of these agree
      on a text and on its UTF-8 encoding.
    - A [float] is a primitive binary64 float.
    - A raised exception is a value of [exn]; code that may raise returns a
      [result].  Only instances of [Exception] are modelled (what
      [except Exception] catches); [str] renders their message.
    - The interpreter is little-endian ([sys.byteorder == 'little']), so the
      [wave] module never swaps sample bytes. *)

From Stdlib Require Import ZArith List Bool Lia.
From Stdlib.Strings Require Import String Ascii Byte.
From Stdlib Require Import DecimalString.
From Corelib Require Import PrimFloat.
Import ListNotations.
Local Open Scope string_scope.
Local Open Scope list_scope.
Local Open Scope Z_scope.

(** ** Exceptions and results *)

Inductive exn : Type :=
| KeyError (key_repr : string)
| IndexError (msg : string)
| TypeError (msg : string)
| AttributeError (msg : string)
| ValueError (msg : string)
| binascii_Error (msg : string)
| struct_error (msg : string)
| wave_Error (msg : string)
| EOFError
| RequestException (msg : string)
| Exception (msg : string).

(** [str(e)].  A [KeyError] carries and prints the [repr] of its key. *)
Definition str (e : exn) : string :=
  match e with
  | KeyError msg | IndexError msg | TypeError msg | AttributeError msg | ValueError msg
  | binascii_Error msg | struct_error msg | wave_Error msg
  | RequestException msg | Exception msg => msg
  | EOFError => ""
  end.

(** [isinstance(e, requests.exceptions.RequestException)]. *)
Definition is_RequestException (e : exn) : bool :=
  match e with
  | RequestException _ => true
  | _ => false
  end.

Definition result (A : Type) : Type := (exn + A)%type.
Definition ok {A : Type} (a : A) : result A := inr a.
Definition raise {A : Type} (e : exn) : result A := inl e.

Definition rbind {A B : Type} (m : result A) (k : A -> result B) : result B :=
  match m with
  | inl e => inl e
  | inr a => k a
  end.

Notation "x <- m ;; k" := (rbind m (fun x => k))
  (at level 61, m at next level, right associativity).

(** ** Bytes and integers *)

Definition bytes : Type := list byte.

Definition len {A : Type} (l : list A) : Z := Z.of_nat (List.length l).

Definition byte_of_Z (z : Z) : byte :=
  match Byte.of_N (Z.to_N (z mod 256)) with
  | Some b => b
  | None => x00
  end.

Definition Z_of_byte (b : byte) : Z := Z.of_N (Byte.to_N b).

Definition bytes_of_string (s : string) : bytes := list_byte_of_string s.

(** The [n] low bytes of [v], least significant first. *)
Fixpoint le_bytes (n : nat) (v : Z) : bytes :=
  match n with
  | O => []
  | S n' => byte_of_Z v :: le_bytes n' (v / 256)
  end.

(** The integer a little-endian byte string denotes. *)
Fixpoint le_value (b : bytes) : Z :=
  match b with
  | [] => 0
  | x :: b' => Z_of_byte x + 256 * le_value b'
  end.

(** [int] to decimal text, as an f-string or [%d] prints it. *)
Definition decimal (z : Z) : string := NilZero.string_of_int (Z.to_int z).

(** ** [struct.pack] with the little-endian standard sizes ([<]) *)

Inductive pack_item : Type :=
| fmt_L (v : Z)
| fmt_H (v : Z)
| fmt_4s (s : bytes).

Definition pack_unsigned (code : string) (width : nat) (v : Z) : result bytes :=
  let top := 2 ^ (8 * Z.of_nat width) - 1 in
  if (0 <=? v) && (v <=? top)
  then ok (le_bytes width v)
  else raise (struct_error ("'" ++ code ++ "' format requires 0 <= number <= " ++ decimal top)).

(** [4s] copies four bytes, cutting a longer string and padding a shorter one
    with null bytes. *)
Definition pack_4s (s : bytes) : bytes :=
  firstn 4 (s ++ repeat x00 4).

Definition pack_one (it : pack_item) : result bytes :=
  match it with
  | fmt_L v => pack_unsigned "L" 4 v
  | fmt_H v => pack_unsigned "H" 2 v
  | fmt_4s s => ok (pack_4s s)
  end.

Fixpoint struct_pack (items : list pack_item) : result bytes :=
  match items with
  | [] => ok []
  | it :: rest =>
      b <- pack_one it ;;
      bs <- struct_pack rest ;;
      ok (b ++ bs)
  end.

(** [struct.unpack_from] of one unsigned field of [width] bytes: it raises
    when the buffer is shorter than the field. *)
Definition unpack_unsigned (width : nat) (buf : bytes) : result Z :=
  if (List.length buf <? width)%nat
  then raise (struct_error ("unpack_from requires a buffer of at least "
                            ++ decimal (Z.of_nat width) ++ " bytes"))
  else ok (le_value (firstn width buf)).

(** ** [io.BytesIO] *)

Record BytesIO : Type := mkBytesIO {
  buf : bytes;
  pos : Z
}.

Definition BytesIO_new : BytesIO := mkBytesIO [] 0.

(** [write] overwrites from the current position, first padding with null
    bytes when the position lies past the end, and advances the position. *)
Definition BytesIO_write (f : BytesIO) (data : bytes) : BytesIO :=
  let padded := buf f ++ repeat x00 (Z.to_nat (pos f - len (buf f))) in
  mkBytesIO
    (firstn (Z.to_nat (pos f)) padded ++ data
       ++ skipn (Z.to_nat (pos f + len data)) padded)
    (pos f + len data).

Definition BytesIO_tell (f : BytesIO) : Z := pos f.

Definition BytesIO_seek (f : BytesIO) (p : Z) : result BytesIO :=
  if p <? 0
  then raise (ValueError ("negative seek value " ++ decimal p))
  else ok (mkBytesIO (buf f) p).

Definition BytesIO_getvalue (f : BytesIO) : bytes := buf f.

(** ** The writer of Python's [wave] module ([wave.Wave_write])

    [convert_l16_to_wav] holds two references to one buffer: [wav_buffer],
    and the [_file] attribute of the writer.  The heap below is that shared
    store; the writer's methods run in a state monad over it and may raise. *)

Record Wave_write : Type := mkWave_write {
  w_file : bool;                     (* [_file] still refers to the buffer *)
  w_nchannels : Z;
  w_sampwidth : Z;
  w_framerate : Z;
  w_nframes : Z;
  w_nframeswritten : Z;
  w_datawritten : Z;
  w_datalength : Z;
  w_headerwritten : bool;
  w_form_length_pos : option Z;
  w_data_length_pos : option Z
}.

Record Heap : Type := mkHeap {
  wav_buffer : BytesIO;
  wav_file : Wave_write
}.

Definition M (A : Type) : Type := Heap -> result A * Heap.

Definition ret {A : Type} (a : A) : M A := fun h => (ok a, h).
Definition throw {A : Type} (e : exn) : M A := fun h => (raise e, h).
Definition lift {A : Type} (r : result A) : M A := fun h => (r, h).

Definition bind {A B : Type} (m : M A) (k : A -> M B) : M B :=
  fun h =>
    match m h with
    | (inl e, h') => (inl e, h')
    | (inr a, h') => k a h'
    end.

Notation "'let*' x ':=' m 'in' k" := (bind m (fun x => k))
  (at level 10, x name, m at level 100, k at level 200).
Notation "m ';;;' k" := (bind m (fun _ => k))
  (at level 62, right associativity).

Definition self : M Wave_write := fun h => (ok (wav_file h), h).

Definition update (f : Wave_write -> Wave_write) : M unit :=
  fun h => (ok tt, mkHeap (wav_buffer h) (f (wav_file h))).

Definition file_write (data : bytes) : M unit :=
  fun h => (ok tt, mkHeap (BytesIO_write (wav_buffer h) data) (wav_file h)).

Definition file_tell : M Z :=
  fun h => (ok (BytesIO_tell (wav_buffer h)), h).

Definition file_seek (p : Z) : M unit :=
  fun h =>
    match BytesIO_seek (wav_buffer h) p with
    | inl e => (inl e, h)
    | inr f => (ok tt, mkHeap f (wav_file h))
    end.

Definition set_file (v : bool) (w : Wave_write) : Wave_write :=
  mkWave_write v (w_nchannels w) (w_sampwidth w) (w_framerate w) (w_nframes w)
    (w_nframeswritten w) (w_datawritten w) (w_datalength w) (w_headerwritten w)
    (w_form_length_pos w) (w_data_length_pos w).

Definition set_nchannels (v : Z) (w : Wave_write) : Wave_write :=
  mkWave_write (w_file w) v (w_sampwidth w) (w_framerate w) (w_nframes w)
    (w_nframeswritten w) (w_datawritten w) (w_datalength w) (w_headerwritten w)
    (w_form_length_pos w) (w_data_length_pos w).

Definition set_sampwidth (v : Z) (w : Wave_write) : Wave_write :=
  mkWave_write (w_file w) (w_nchannels w) v (w_framerate w) (w_nframes w)
    (w_nframeswritten w) (w_datawritten w) (w_datalength w) (w_headerwritten w)
    (w_form_length_pos w) (w_data_length_pos w).

Definition set_framerate (v : Z) (w : Wave_write) : Wave_write :=
  mkWave_write (w_file w) (w_nchannels w) (w_sampwidth w) v (w_nframes w)
    (w_nframeswritten w) (w_datawritten w) (w_datalength w) (w_headerwritten w)
    (w_form_length_pos w) (w_data_length_pos w).

Definition set_nframes (v : Z) (w : Wave_write) : Wave_write :=
  mkWave_write (w_file w) (w_nchannels w) (w_sampwidth w) (w_framerate w) v
    (w_nframeswritten w) (w_datawritten w) (w_datalength w) (w_headerwritten w)
    (w_form_length_pos w) (w_data_length_pos w).

Definition set_nframeswritten (v : Z) (w : Wave_write) : Wave_write :=
  mkWave_write (w_file w) (w_nchannels w) (w_sampwidth w) (w_framerate w)
    (w_nframes w) v (w_datawritten w) (w_datalength w) (w_headerwritten w)
    (w_form_length_pos w) (w_data_length_pos w).

Definition set_datawritten (v : Z) (w : Wave_write) : Wave_write :=
  mkWave_write (w_file w) (w_nchannels w) (w_sampwidth w) (w_framerate w)
    (w_nframes w) (w_nframeswritten w) v (w_datalength w) (w_headerwritten w)
    (w_form_length_pos w) (w_data_length_pos w).

Definition set_datalength (v : Z) (w : Wave_write) : Wave_write :=
  mkWave_write (w_file w) (w_nchannels w) (w_sampwidth w) (w_framerate w)
    (w_nframes w) (w_nframeswritten w) (w_datawritten w) v (w_headerwritten w)
    (w_form_length_pos w) (w_data_length_pos w).

Definition set_headerwritten (v : bool) (w : Wave_write) : Wave_write :=
  mkWave_write (w_file w) (w_nchannels w) (w_sampwidth w) (w_framerate w)
    (w_nframes w) (w_nframeswritten w) (w_datawritten w) (w_datalength w) v
    (w_form_length_pos w) (w_data_length_pos w).

Definition set_form_length_pos (v : option Z) (w : Wave_write) : Wave_write :=
  mkWave_write (w_file w) (w_nchannels w) (w_sampwidth w) (w_framerate w)
    (w_nframes w) (w_nframeswritten w) (w_datawritten w) (w_datalength w)
    (w_headerwritten w) v (w_data_length_pos w).

Definition set_data_length_pos (v : option Z) (w : Wave_write) : Wave_write :=
  mkWave_write (w_file w) (w_nchannels w) (w_sampwidth w) (w_framerate w)
    (w_nframes w) (w_nframeswritten w) (w_datawritten w) (w_datalength w)
    (w_headerwritten w) (w_form_length_pos w) v.

Definition WAVE_FORMAT_PCM : Z := 1.
Definition WAVE_FORMAT_EXTENSIBLE : Z := 65534.

(** [Wave_write.initfp]: the writer [wave.open(wav_buffer, 'wb')] returns. *)
Definition Wave_write_initfp : Wave_write :=
  mkWave_write true 0 0 0 0 0 0 0 false None None.

Definition cannot_change : exn :=
  wave_Error "cannot change parameters after starting to write".

Definition setnchannels (nchannels : Z) : M unit :=
  let* w := self in
  if negb (w_datawritten w =? 0) then throw cannot_change
  else if nchannels <? 1 then throw (wave_Error "bad # of channels")
  else update (set_nchannels nchannels).

Definition setsampwidth (sampwidth : Z) : M unit :=
  let* w := self in
  if negb (w_datawritten w =? 0) then throw cannot_change
  else if (sampwidth <? 1) || (4 <? sampwidth) then throw (wave_Error "bad sample width")
  else update (set_sampwidth sampwidth).

(** The rate is an [int] here, so [int(round(framerate))] is the rate. *)
Definition setframerate (framerate : Z) : M unit :=
  let* w := self in
  if negb (w_datawritten w =? 0) then throw cannot_change
  else if framerate <=? 0 then throw (wave_Error "bad frame rate")
  else update (set_framerate framerate).

Definition write_header (initlength : Z) : M unit :=
  file_write (bytes_of_string "RIFF") ;;;
  let* w0 := self in
  (if w_nframes w0 =? 0
   then update (set_nframes (initlength / (w_nchannels w0 * w_sampwidth w0)))
   else ret tt) ;;;
  let* w1 := self in
  update (set_datalength (w_nframes w1 * w_nchannels w1 * w_sampwidth w1)) ;;;
  let* p := file_tell in
  update (set_form_length_pos (Some p)) ;;;
  let* w := self in
  let* hdr := lift (struct_pack
      [ fmt_L (36 + w_datalength w);
        fmt_4s (bytes_of_string "WAVE");
        fmt_4s (bytes_of_string "fmt ");
        fmt_L 16;
        fmt_H WAVE_FORMAT_PCM;
        fmt_H (w_nchannels w);
        fmt_L (w_framerate w);
        fmt_L (w_nchannels w * w_framerate w * w_sampwidth w);
        fmt_H (w_nchannels w * w_sampwidth w);
        fmt_H (w_sampwidth w * 8);
        fmt_4s (bytes_of_string "data") ]) in
  file_write hdr ;;;
  let* q := file_tell in
  update (set_data_length_pos (Some q)) ;;;
  let* sz := lift (struct_pack [ fmt_L (w_datalength w) ]) in
  file_write sz ;;;
  update (set_headerwritten true).

Definition ensure_header_written (datasize : Z) : M unit :=
  let* w := self in
  if w_headerwritten w then ret tt
  else if w_nchannels w =? 0 then throw (wave_Error "# channels not specified")
  else if w_sampwidth w =? 0 then throw (wave_Error "sample width not specified")
  else if w_framerate w =? 0 then throw (wave_Error "sampling rate not specified")
  else write_header datasize.

(** [self._file.seek(p, 0)] for a position attribute; the attribute is set
    by [write_header] and reading it before that raises. *)
Definition seek_to (p : option Z) : M unit :=
  match p with
  | Some p => file_seek p
  | None => throw (AttributeError "'Wave_write' object has no attribute")
  end.

Definition patchheader : M unit :=
  let* w := self in
  if w_datawritten w =? w_datalength w then ret tt
  else
    let* curpos := file_tell in
    seek_to (w_form_length_pos w) ;;;
    let* a := lift (struct_pack [ fmt_L (36 + w_datawritten w) ]) in
    file_write a ;;;
    seek_to (w_data_length_pos w) ;;;
    let* b := lift (struct_pack [ fmt_L (w_datawritten w) ]) in
    file_write b ;;;
    file_seek curpos ;;;
    update (set_datalength (w_datawritten w)).

Definition writeframesraw (data : bytes) : M unit :=
  ensure_header_written (len data) ;;;
  let* w := self in
  let nframes := len data / (w_sampwidth w * w_nchannels w) in
  file_write data ;;;
  update (set_datawritten (w_datawritten w + len data)) ;;;
  update (set_nframeswritten (w_nframeswritten w + nframes)).

Definition writeframes (data : bytes) : M unit :=
  writeframesraw data ;;;
  let* w := self in
  if negb (w_datalength w =? w_datawritten w) then patchheader else ret tt.

(** [close]: the body of its [try], then the [finally] clause, which drops
    the writer's reference to the buffer whether or not the body raised. *)
Definition close : M unit :=
  fun h =>
    let body : M unit :=
      let* w := self in
      if w_file w
      then
        ensure_header_written 0 ;;;
        let* w' := self in
        if negb (w_datalength w' =? w_datawritten w') then patchheader else ret tt
      else ret tt in
    match body h with
    | (r, h') => (r, mkHeap (wav_buffer h') (set_file false (wav_file h')))
    end.

(** [with wave.open(wav_buffer, 'wb') as wav_file: body].  [__exit__] calls
    [close] on every path; an exception of [close] replaces the body's. *)
Definition with_wave_open {A : Type} (body : M A) : M A :=
  fun h =>
    match body h with
    | (inr a, h1) =>
        match close h1 with
        | (inr _, h2) => (ok a, h2)
        | (inl e, h2) => (raise e, h2)
        end
    | (inl e, h1) =>
        match close h1 with
        | (inr _, h2) => (raise e, h2)
        | (inl e', h2) => (raise e', h2)
        end
    end.

(** ** The container encoder *)

Definition convert_l16_to_wav (pcm_data : bytes) : result bytes :=
  let sample_rate := 24000 in
  let num_channels := 1 in
  let sample_width := 2 in
  let wav_buffer0 := BytesIO_new in
  match with_wave_open
          (setnchannels num_channels ;;;
           setsampwidth sample_width ;;;
           setframerate sample_rate ;;;
           writeframes pcm_data)
          (mkHeap wav_buffer0 Wave_write_initfp) with
  | (inl e, _) => raise e
  | (inr _, h) =>
      f <- BytesIO_seek (wav_buffer h) 0 ;;
      ok (BytesIO_getvalue f)
  end.

(** ** The reader of Python's [wave] module ([wave.Wave_read])

    The decoder that pairs with the writer above.  [Chunk_open] is the
    module's [_Chunk]: a four-byte name, a little-endian size, then the body.
    The chunks of a file are read through the enclosing RIFF chunk, which
    hands out no byte past its own declared size. *)

Fixpoint bytes_eqb (a b : bytes) : bool :=
  match a, b with
  | [], [] => true
  | x :: a', y :: b' => Byte.eqb x y && bytes_eqb a' b'
  | _, _ => false
  end.

Record Chunk : Type := mkChunk {
  chunkname : bytes;
  chunksize : Z;
  chunk_body : bytes      (* what [read] can return: at most [chunksize] bytes *)
}.

Definition Chunk_open (file : bytes) : result Chunk :=
  let name := firstn 4 file in
  if (List.length name <? 4)%nat then raise EOFError
  else
    match unpack_unsigned 4 (firstn 4 (skipn 4 file)) with
    | inl _ => raise EOFError
    | inr size => ok (mkChunk name size (firstn (Z.to_nat size) (skipn 8 file)))
    end.

(** The bytes [skip] moves over: header, body and the pad byte of an odd size. *)
Definition chunk_extent (c : Chunk) : Z :=
  8 + chunksize c + chunksize c mod 2.

Record Fmt : Type := mkFmt {
  f_nchannels : Z;
  f_framerate : Z;
  f_sampwidth : Z;
  f_framesize : Z
}.

Definition KSDATAFORMAT_SUBTYPE_PCM : bytes :=
  [x01; x00; x00; x00; x00; x00; x10; x00; x80; x00; x00; xaa; x00; x38; x9b; x71].

(** A short read makes [struct.unpack_from] fail, which the reader turns into
    [EOFError]. *)
Definition read_field (width : nat) (at_ : nat) (body : bytes) : result Z :=
  match unpack_unsigned width (firstn width (skipn at_ body)) with
  | inl _ => raise EOFError
  | inr v => ok v
  end.

Definition read_fmt_chunk (chunk : Chunk) : result Fmt :=
  let body := chunk_body chunk in
  if (List.length (firstn 14 body) <? 14)%nat then raise EOFError
  else
    wFormatTag <- read_field 2 0 body ;;
    nchannels <- read_field 2 2 body ;;
    framerate <- read_field 4 4 body ;;
    if negb (wFormatTag =? WAVE_FORMAT_PCM) && negb (wFormatTag =? WAVE_FORMAT_EXTENSIBLE)
    then raise (wave_Error ("unknown format: " ++ decimal wFormatTag))
    else
      bits <- read_field 2 14 body ;;
      _ <- (if wFormatTag =? WAVE_FORMAT_EXTENSIBLE
            then
              if (List.length (firstn 8 (skipn 16 body)) <? 8)%nat then raise EOFError
              else
                let SubFormat := firstn 16 (skipn 24 body) in
                if (List.length SubFormat <? 16)%nat then raise EOFError
                else if negb (bytes_eqb SubFormat KSDATAFORMAT_SUBTYPE_PCM)
                then raise (wave_Error "unknown extended format")
                else ok tt
            else ok tt) ;;
      let sampwidth := (bits + 7) / 8 in
      if sampwidth =? 0 then raise (wave_Error "bad sample width")
      else if nchannels =? 0 then raise (wave_Error "bad # of channels")
      else ok (mkFmt nchannels framerate sampwidth (nchannels * sampwidth)).

Record Wave_read : Type := mkWave_read {
  r_fmt : Fmt;
  r_nframes : Z;
  r_data_chunk : Chunk
}.

(** [raise RuntimeError], which carries no message. *)
Definition RuntimeError : exn := Exception "".

(** The chunk loop of [Wave_read.initfp].  [riff] is what the RIFF chunk can
    hand out, [riff_size] its declared size and [off] the read position in it.
    The loop stops at the data chunk; running out of chunks leaves the reader
    without one.  Skipping a chunk past the declared end of the RIFF chunk
    raises.  Every round moves [off] by at least a header, so [fuel] (the
    loop is unbounded in the source) is set from the length of the input. *)
Fixpoint read_chunks (fuel : nat) (riff_size : Z) (riff : bytes) (off : Z)
    (fmt : option Fmt) : result Wave_read :=
  match fuel with
  | O => raise (wave_Error "fmt chunk and/or data chunk missing")
  | S fuel' =>
      match Chunk_open (skipn (Z.to_nat off) riff) with
      | inl _ => raise (wave_Error "fmt chunk and/or data chunk missing")
      | inr chunk =>
          let next := off + chunk_extent chunk in
          if bytes_eqb (chunkname chunk) (bytes_of_string "fmt ")
          then
            f <- read_fmt_chunk chunk ;;
            if riff_size <? next then raise RuntimeError
            else read_chunks fuel' riff_size riff next (Some f)
          else if bytes_eqb (chunkname chunk) (bytes_of_string "data")
          then
            match fmt with
            | None => raise (wave_Error "data chunk before fmt chunk")
            | Some f => ok (mkWave_read f (chunksize chunk / f_framesize f) chunk)
            end
          else if riff_size <? next then raise RuntimeError
          else read_chunks fuel' riff_size riff next fmt
      end
  end.

Definition Wave_read_initfp (file : bytes) : result Wave_read :=
  outer <- Chunk_open file ;;
  if negb (bytes_eqb (chunkname outer) (bytes_of_string "RIFF"))
  then raise (wave_Error "file does not start with RIFF id")
  else if negb (bytes_eqb (firstn 4 (chunk_body outer)) (bytes_of_string "WAVE"))
  then raise (wave_Error "not a WAVE file")
  else read_chunks (S (List.length file)) (chunksize outer) (chunk_body outer) 4 None.

Definition getnchannels (r : Wave_read) : Z := f_nchannels (r_fmt r).
Definition getsampwidth (r : Wave_read) : Z := f_sampwidth (r_fmt r).
Definition getframerate (r : Wave_read) : Z := f_framerate (r_fmt r).
Definition getnframes (r : Wave_read) : Z := r_nframes r.

(** [readframes(nframes)] on a freshly opened reader. *)
Definition readframes (r : Wave_read) (nframes : Z) : bytes :=
  if nframes =? 0 then []
  else firstn (Z.to_nat (nframes * f_framesize (r_fmt r))) (chunk_body (r_data_chunk r)).

(** What a player learns from a container: its parameters and all frames. *)
Record Decoded : Type := mkDecoded {
  d_channels : Z;
  d_sample_rate : Z;
  d_bit_depth : Z;
  d_frames : bytes
}.

Definition wav_decode (file : bytes) : result Decoded :=
  r <- Wave_read_initfp file ;;
  ok (mkDecoded (getnchannels r) (getframerate r) (8 * getsampwidth r)
        (readframes r (getnframes r))).

(** Fields of the 44-byte header, read back at their fixed offsets. *)
Definition header_field (width at_ : nat) (file : bytes) : Z :=
  le_value (firstn width (skipn at_ file)).

Definition channel_field : bytes -> Z := header_field 2 22.
Definition sample_rate_field : bytes -> Z := header_field 4 24.
Definition bit_depth_field : bytes -> Z := header_field 2 34.
Definition data_size_field : bytes -> Z := header_field 4 40.
Definition data_block (file : bytes) : bytes := skipn 44 file.

(** ** Parsed JSON ([response.json()]) and the Python operations on it *)

#[local] Set Warnings "-register-all".

Inductive json : Type :=
| JNull
| JBool (b : bool)
| JInt (n : Z)
| JFloat (x : float)
| JString (s : string)
| JArray (items : list json)
| JObject (items : list (string * json)).

(** [type(v).__name__], as the interpreter's messages print it. *)
Definition type_name (v : json) : string :=
  match v with
  | JNull => "NoneType"
  | JBool _ => "bool"
  | JInt _ => "int"
  | JFloat _ => "float"
  | JString _ => "str"
  | JArray _ => "list"
  | JObject _ => "dict"
  end.

(** [repr] of a key made of plain identifier characters. *)
Definition repr_str (key : string) : string := "'" ++ key ++ "'".

Fixpoint dict_get (items : list (string * json)) (key : string) : option json :=
  match items with
  | [] => None
  | (k, v) :: rest => if String.eqb k key then Some v else dict_get rest key
  end.

(** [needle in haystack] on two [str]: a substring test. *)
Fixpoint str_contains (needle haystack : string) : bool :=
  String.prefix needle haystack
  || match haystack with
     | EmptyString => false
     | String _ rest => str_contains needle rest
     end.

(** A byte of a UTF-8 encoding that continues a character begun earlier. *)
Definition is_continuation (a : ascii) : bool :=
  let n := Z.of_nat (nat_of_ascii a) in (128 <=? n) && (n <? 192).

(** The characters of a [str], each as a one-character [str]. *)
Fixpoint chars (s : string) : list string :=
  match s with
  | EmptyString => []
  | String a rest =>
      match chars rest with
      | [] => [String a EmptyString]
      | c :: cs =>
          match c with
          | String b _ =>
              if is_continuation b then String a c :: cs
              else String a EmptyString :: c :: cs
          | EmptyString => String a EmptyString :: cs
          end
      end
  end.

Definition is_str (needle : string) (v : json) : bool :=
  match v with
  | JString s => String.eqb s needle
  | _ => false
  end.

(** [needle in v] for a [str] needle. *)
Definition py_in (needle : string) (v : json) : result bool :=
  match v with
  | JObject items =>
      ok (match dict_get items needle with Some _ => true | None => false end)
  | JArray items => ok (existsb (is_str needle) items)
  | JString s => ok (str_contains needle s)
  | _ => raise (TypeError ("argument of type '" ++ type_name v ++ "' is not iterable"))
  end.

(** [len(v)]. *)
Definition py_len (v : json) : result Z :=
  match v with
  | JObject items => ok (len items)
  | JArray items => ok (len items)
  | JString s => ok (len (chars s))
  | _ => raise (TypeError ("object of type '" ++ type_name v ++ "' has no len()"))
  end.

Definition not_subscriptable (v : json) : exn :=
  TypeError ("'" ++ type_name v ++ "' object is not subscriptable").

(** [v[key]] for a [str] key. *)
Definition getitem (v : json) (key : string) : result json :=
  match v with
  | JObject items =>
      match dict_get items key with
      | Some x => ok x
      | None => raise (KeyError (repr_str key))
      end
  | JArray _ => raise (TypeError "list indices must be integers or slices, not str")
  | JString _ => raise (TypeError "string indices must be integers, not 'str'")
  | _ => raise (not_subscriptable v)
  end.

(** [v[0]].  A parsed JSON object has only [str] keys, so [0] is never one. *)
Definition getitem0 (v : json) : result json :=
  match v with
  | JArray items =>
      match items with
      | x :: _ => ok x
      | [] => raise (IndexError "list index out of range")
      end
  | JString s =>
      match chars s with
      | c :: _ => ok (JString c)
      | [] => raise (IndexError "string index out of range")
      end
  | JObject _ => raise (KeyError "0")
  | _ => raise (not_subscriptable v)
  end.

(** [v.get(key)]: only a [dict] has the method. *)
Definition get (v : json) (key : string) : result json :=
  match v with
  | JObject items =>
      ok (match dict_get items key with Some x => x | None => JNull end)
  | _ => raise (AttributeError ("'" ++ type_name v ++ "' object has no attribute 'get'"))
  end.

(** Truth value of [v], as [if v:] tests it. *)
Definition truthy (v : json) : bool :=
  match v with
  | JNull => false
  | JBool b => b
  | JInt n => negb (n =? 0)
  | JFloat x => negb (PrimFloat.eqb x 0%float)
  | JString s => negb (String.eqb s "")
  | JArray items => match items with [] => false | _ => true end
  | JObject items => match items with [] => false | _ => true end
  end.

(** ** [base64.b64decode]

    [b64decode(s)] with the default [validate=False]: a [str] must be ASCII
    and is handed to [binascii.a2b_base64], which skips every character
    outside the alphabet, stops at the padding that completes a quad, and
    raises when the data characters do not fill their last quad. *)

Definition b64_value (a : ascii) : option Z :=
  let n := Z.of_nat (nat_of_ascii a) in
  if (65 <=? n) && (n <=? 90) then Some (n - 65)
  else if (97 <=? n) && (n <=? 122) then Some (n - 71)
  else if (48 <=? n) && (n <=? 57) then Some (n + 4)
  else if n =? 43 then Some 62
  else if n =? 47 then Some 63
  else None.

Definition BASE64_PAD : ascii := "="%char.

(** The decoding loop: [quad_pos] is the position in the current quad,
    [leftchar] the bits not yet written, [pads] the padding characters seen
    since the last data character, [out] the bytes written so far, newest
    first. *)
Fixpoint a2b_base64_loop (s : string) (quad_pos leftchar pads : Z) (out : bytes)
    : result bytes :=
  match s with
  | EmptyString =>
      if quad_pos =? 0 then ok (rev out)
      else if quad_pos =? 1
      then raise (binascii_Error
             ("Invalid base64-encoded string: number of data characters ("
              ++ decimal (len out / 3 * 4 + 1)
              ++ ") cannot be 1 more than a multiple of 4"))
      else raise (binascii_Error "Incorrect padding")
  | String c rest =>
      if Ascii.eqb c BASE64_PAD
      then
        if 2 <=? quad_pos
        then
          if 4 <=? quad_pos + (pads + 1) then ok (rev out)
          else a2b_base64_loop rest quad_pos leftchar (pads + 1) out
        else a2b_base64_loop rest quad_pos leftchar pads out
      else
        match b64_value c with
        | None => a2b_base64_loop rest quad_pos leftchar pads out
        | Some v =>
            if quad_pos =? 0
            then a2b_base64_loop rest 1 v 0 out
            else if quad_pos =? 1
            then a2b_base64_loop rest 2 (Z.land v 15) 0
                   (byte_of_Z (Z.lor (Z.shiftl leftchar 2) (Z.shiftr v 4)) :: out)
            else if quad_pos =? 2
            then a2b_base64_loop rest 3 (Z.land v 3) 0
                   (byte_of_Z (Z.lor (Z.shiftl leftchar 4) (Z.shiftr v 2)) :: out)
            else a2b_base64_loop rest 0 0 0
                   (byte_of_Z (Z.lor (Z.shiftl leftchar 6) v) :: out)
        end
  end.

Definition a2b_base64 (s : string) : result bytes :=
  a2b_base64_loop s 0 0 0 [].

Fixpoint is_ascii_str (s : string) : bool :=
  match s with
  | EmptyString => true
  | String a rest => (nat_of_ascii a <? 128)%nat && is_ascii_str rest
  end.

Definition b64decode (v : json) : result bytes :=
  match v with
  | JString s =>
      if is_ascii_str s then a2b_base64 s
      else raise (ValueError "string argument should contain only ASCII characters")
  | _ => raise (TypeError
           ("argument should be a bytes-like object or ASCII string, not '"
            ++ type_name v ++ "'"))
  end.

(** ** [requests]: one request, one outcome *)

Record Request : Type := mkRequest {
  req_url : string;
  req_headers : list (string * string);
  req_data : json        (* the value whose [json.dumps] text is the body *)
}.

Record Response : Type := mkResponse {
  status_code : Z;
  reason : string;
  url : string;
  json_body : result json    (* what [response.json()] returns or raises *)
}.

(** [Response.raise_for_status]: client (4xx) and server (5xx) statuses raise
    [HTTPError], a [RequestException]; every other status passes. *)
Definition raise_for_status (r : Response) : result unit :=
  if (400 <=? status_code r) && (status_code r <? 500)
  then raise (RequestException
         (decimal (status_code r) ++ " Client Error: " ++ reason r
          ++ " for url: " ++ url r))
  else if (500 <=? status_code r) && (status_code r <? 600)
  then raise (RequestException
         (decimal (status_code r) ++ " Server Error: " ++ reason r
          ++ " for url: " ++ url r))
  else ok tt.

(** The network: what [requests.post] does with a request, given the requests
    sent before it.  It raises (a connection error is a [RequestException])
    or returns a response. *)
Definition Network : Type := list Request -> Request -> result Response.

(** [requests.post]: the call is recorded in the log of requests sent. *)
Definition requests_post (net : Network) (req : Request) (sent : list Request)
    : result Response * list Request :=
  (net sent req, sent ++ [req]).

(** ** The request component *)

Definition default_voice_name : string := "Puck".

Definition endpoint : string :=
  "https://generativelanguage.googleapis.com/v1beta/models/gemini-2.5-flash-preview-tts:generateContent?key=".

Definition payload_of (text voice_name : string) : json :=
  JObject
    [ ("contents",
       JArray [ JObject [ ("role", JString "user");
                          ("parts", JArray [ JObject [ ("text", JString text) ] ]) ] ]);
      ("generationConfig",
       JObject
         [ ("responseModalities", JArray [ JString "AUDIO" ]);
           ("speechConfig",
            JObject
              [ ("voiceConfig",
                 JObject
                   [ ("prebuiltVoiceConfig",
                      JObject [ ("voiceName", JString voice_name) ]) ]) ]) ]) ].

Definition no_audio : string := "No audio data in response".

(** The body of the [try] after [result = response.json()]: the navigation
    of the parsed reply, up to one of the two [return] statements. *)
Definition extract_audio (reply : json) : result (option bytes * option string) :=
  has_candidates <- py_in "candidates" reply ;;
  nonempty <- (if has_candidates
               then c <- getitem reply "candidates" ;;
                    n <- py_len c ;;
                    ok (0 <? n)
               else ok false) ;;
  if nonempty
  then
    candidates <- getitem reply "candidates" ;;
    candidate <- getitem0 candidates ;;
    content <- getitem candidate "content" ;;
    parts <- getitem content "parts" ;;
    part <- getitem0 parts ;;
    inline_data <- get part "inlineData" ;;
    if truthy inline_data
    then
      data <- getitem inline_data "data" ;;
      audio_data <- b64decode data ;;
      mime_type <- getitem inline_data "mimeType" ;;
      is_l16 <- py_in "audio/L16" mime_type ;;
      is_raw <- (if is_l16 then ok true else py_in "audio/pcm" mime_type) ;;
      audio_data <- (if is_raw then convert_l16_to_wav audio_data else ok audio_data) ;;
      ok (Some audio_data, None)
    else ok (None, Some no_audio)
  else ok (None, Some no_audio).

(** The two [except] clauses, tried in order. *)
Definition handle (e : exn) : option bytes * option string :=
  if is_RequestException e
  then (None, Some ("API Error: " ++ str e)%string)
  else (None, Some ("Error: " ++ str e)%string).

(** [generate_speech(api_key, text, voice_name="Puck")]; [None] for
    [voice_name] is a call that leaves the argument out.  The function also
    takes the network and the log of requests sent, and returns the log. *)
Definition generate_speech (net : Network) (api_key text : string)
    (voice_name : option string) (sent : list Request)
    : (option bytes * option string) * list Request :=
  let voice_name :=
    match voice_name with Some v => v | None => default_voice_name end in
  let url := (endpoint ++ api_key)%string in
  let payload := payload_of text voice_name in
  let headers := [ ("Content-Type", "application/json") ] in
  let (posted, sent') := requests_post net (mkRequest url headers payload) sent in
  let tried :=
    response <- posted ;;
    _ <- raise_for_status response ;;
    reply <- json_body response ;;
    extract_audio reply in
  (match tried with
   | inr r => r
   | inl e => handle e
   end, sent').

(** ** Reference points for the statements below *)

(** The 44-byte header of a mono, 16-bit, 24 kHz container whose RIFF chunk
    declares [riff_len] bytes and whose data chunk declares [data_len]. *)
Definition riff_header (riff_len data_len : Z) : bytes :=
  bytes_of_string "RIFF" ++ le_bytes 4 riff_len
  ++ bytes_of_string "WAVE" ++ bytes_of_string "fmt " ++ le_bytes 4 16
  ++ le_bytes 2 1 ++ le_bytes 2 1 ++ le_bytes 4 24000 ++ le_bytes 4 48000
  ++ le_bytes 2 2 ++ le_bytes 2 16
  ++ bytes_of_string "data" ++ le_bytes 4 data_len.

Definition wav_header (n : Z) : bytes := riff_header (36 + n) n.

(** The largest value of an [L] field, and the longest input whose container
    still fits one: 36 header bytes follow the RIFF length field. *)
Definition UINT32_MAX : Z := 4294967295.
Definition MAX_PCM_LEN : Z := UINT32_MAX - 36.

(** The writer after the three setters, and after the header went out. *)
Definition params_set : Wave_write :=
  mkWave_write true 1 2 24000 0 0 0 0 false None None.

Definition header_out (nframes written nwritten datalength : Z) : Wave_write :=
  mkWave_write true 1 2 24000 nframes nwritten written datalength true
    (Some 4) (Some 40).

(** The writer when [struct.pack] refused the header: ["RIFF"] is out, the
    frame count is fixed, the header is not marked written. *)
Definition header_failed (nframes : Z) : Wave_write :=
  mkWave_write true 1 2 24000 nframes 0 0 (nframes * 2) false (Some 4) None.

(** What [struct.pack] raises for an [L] field above [UINT32_MAX]. *)
Definition overflow : exn :=
  struct_error "'L' format requires 0 <= number <= 4294967295".

Definition zeros (n : Z) : bytes := repeat x00 (Z.to_nat n).

(** The format chunk and the data chunk of such a container, and the format
    the reader finds in it. *)
Definition fmt_body : bytes :=
  le_bytes 2 1 ++ le_bytes 2 1 ++ le_bytes 4 24000 ++ le_bytes 4 48000
  ++ le_bytes 2 2 ++ le_bytes 2 16.

Definition fmt_chunk : bytes := bytes_of_string "fmt " ++ le_bytes 4 16 ++ fmt_body.

Definition data_chunk (S : bytes) : bytes :=
  bytes_of_string "data" ++ le_bytes 4 (len S) ++ S.

Definition fmt_mono16 : Fmt := mkFmt 1 24000 2 2.

(** ** The reply's path [candidates[0].content.parts[0].inlineData] *)

(** [field key v]: the value under [key] when [v] is an object that has it. *)
Definition field (key : string) (v : json) : option json :=
  match v with
  | JObject items => dict_get items key
  | _ => None
  end.

(** [first v]: the first element when [v] is a non-empty array. *)
Definition first (v : json) : option json :=
  match v with
  | JArray (x :: _) => Some x
  | _ => None
  end.

Definition and_then {A B : Type} (o : option A) (k : A -> option B) : option B :=
  match o with
  | Some a => k a
  | None => None
  end.

Definition candidate0 (reply : json) : option json :=
  and_then (field "candidates" reply) first.

Definition content_of (reply : json) : option json :=
  and_then (candidate0 reply) (field "content").

Definition part0 (reply : json) : option json :=
  and_then (and_then (content_of reply) (field "parts")) first.

Definition inline_data_of (reply : json) : option json :=
  and_then (part0 reply) (field "inlineData").

(** [v] is an object without [key]. *)
Definition lacks_key (key : string) (v : json) : Prop :=
  match v with
  | JObject items => dict_get items key = None
  | _ => False
  end.

(** The component of the path a reply stops at. *)
Inductive missing : Type :=
| candidates_key
| candidates_empty
| content_key
| parts_key
| parts_empty
| inlineData_key.

Definition lacks_audio (m : missing) (reply : json) : Prop :=
  match m with
  | candidates_key => lacks_key "candidates" reply
  | candidates_empty => field "candidates" reply = Some (JArray [])
  | content_key => exists c, candidate0 reply = Some c /\ lacks_key "content" c
  | parts_key => exists ct, content_of reply = Some ct /\ lacks_key "parts" ct
  | parts_empty =>
      exists ct, content_of reply = Some ct /\ field "parts" ct = Some (JArray [])
  | inlineData_key => exists p, part0 reply = Some p /\ lacks_key "inlineData" p
  end.

(** What [generate_speech] returns for each of them. *)
Definition returned_when (m : missing) : option bytes * option string :=
  match m with
  | candidates_key | candidates_empty | inlineData_key => (None, Some no_audio)
  | content_key => (None, Some "Error: 'content'")
  | parts_key => (None, Some "Error: 'parts'")
  | parts_empty => (None, Some "Error: list index out of range")
  end.

(** The request one call sends. *)
Definition request_of (api_key text : string) (voice_name : option string) : Request :=
  mkRequest (endpoint ++ api_key)%string
    [ ("Content-Type", "application/json") ]
    (payload_of text
       (match voice_name with Some v => v | None => default_voice_name end)).

(** The network answers [req] with a status that passes [raise_for_status]
    and a body that parses to [reply]. *)
Definition answers (net : Network) (sent : list Request) (req : Request)
    (reply : json) : Prop :=
  exists resp,
    net sent req = ok resp /\ raise_for_status resp = ok tt
    /\ json_body resp = ok reply.

(** [HTTPError] as [raise_for_status] builds it for a 4xx or 5xx status. *)
Definition HTTPError (resp : Response) : exn :=
  RequestException
    (decimal (status_code resp)
     ++ (if status_code resp <? 500 then " Client Error: " else " Server Error: ")
     ++ reason resp ++ " for url: " ++ url resp).

(** A transport-level failure of the call and the exception that reports it:
    [requests.post] raises a [RequestException], or the response carries a
    client or server error status. *)
Inductive transport_failure : result Response -> exn -> Prop :=
| connection_error (msg : string) :
    transport_failure (raise (RequestException msg)) (RequestException msg)
| error_status (resp : Response) :
    400 <= status_code resp < 600 ->
    transport_failure (ok resp) (HTTPError resp).

(** The [voiceName] a request payload carries. *)
Definition voiceName_of (payload : json) : option json :=
  and_then (and_then (and_then (and_then (field "generationConfig" payload)
    (field "speechConfig")) (field "voiceConfig")) (field "prebuiltVoiceConfig"))
    (field "voiceName").

(** A network that answers every request with [resp]. *)
Definition always (resp : Response) : Network := fun _ _ => ok resp.

(** A reply that carries [data] under the whole path, labelled [mime_type]. *)
Definition audio_reply (mime_type data : string) : json :=
  JObject
    [ ("candidates",
       JArray
         [ JObject
             [ ("content",
                JObject
                  [ ("parts",
                     JArray
                       [ JObject
                           [ ("inlineData",
                              JObject [ ("mimeType", JString mime_type);
                                        ("data", JString data) ]) ] ]) ]) ] ]) ].

(** [n] times the quad ["AAAA"], the base64 text of [3 * n] null bytes. *)
Fixpoint quads (n : nat) : string :=
  match n with
  | O => EmptyString
  | S n' => String "A" (String "A" (String "A" (String "A" (quads n'))))
  end.

(** ** The page script (lines 88 to 149)

    One run of the script.  The values the input widgets return are
    parameters: [api_key] ([st.text_input]), [selected_voice]
    ([st.selectbox], one of [voices]), [text_input] ([st.text_area], at most
    5000 characters) and [pressed], what [st.button] returns.  The [disabled]
    flag of the button only greys it out in the browser, so it is part of
    what is rendered, not of what [st.button] returns.  A run yields the
    elements it renders, in order, and the log of requests sent.  The title
    above and the instructions below the form are fixed text and are left
    out. *)

Inductive element : Type :=
| st_markdown (body : string)
| st_info (body : string)
| st_button (label : string) (disabled : bool)
| st_error (body : string)
| st_success (body : string)
| st_audio (data : bytes) (format : string)
| st_download_button (label : string) (data : bytes) (file_name mime : string).

Definition voices : list string :=
  [ "Puck"; "Charon"; "Kore"; "Fenrir"; "Aoede";
    "Leda"; "Grus"; "Elio"; "Kiera"; "Orion" ].

(** [not s] for a [str]. *)
Definition str_not (s : string) : bool := String.eqb s "".

(** Truth value of the two results of [generate_speech]: [None] and the
    empty value are false. *)
Definition error_truthy (error : option string) : bool :=
  match error with
  | Some e => negb (str_not e)
  | None => false
  end.

Definition audio_truthy (audio_data : option bytes) : bool :=
  match audio_data with
  | Some (_ :: _) => true
  | _ => false
  end.

Definition color (char_count : Z) : string :=
  if 2000 <? char_count then "red"
  else if 1500 <? char_count then "orange"
  else "green".

(** The character counter: nothing for an empty text. *)
Definition character_counter (text_input : string) : list element :=
  let char_count := len (chars text_input) in
  if 0 <? char_count
  then [ st_markdown ("<p style='color: " ++ color char_count
                      ++ "; font-size: 14px;'>Characters: "
                      ++ decimal char_count ++ "/5000</p>") ]
  else [].

(** What the run renders for the pair [generate_speech] returned. *)
Definition show_result (audio_data : option bytes) (error : option string)
    : list element :=
  if error_truthy error
  then [ st_error ("❌ " ++ match error with Some e => e | None => "" end) ]
  else if audio_truthy audio_data
  then
    let data := match audio_data with Some a => a | None => [] end in
    [ st_success "✅ Audio generated successfully!";
      st_audio data "audio/wav";
      st_download_button "📥 Download Audio" data "gemini_tts_output.wav" "audio/wav" ]
  else [].

(** The body of [if st.button(...):]. *)
Definition on_generate (net : Network) (api_key selected_voice text_input : string)
    (sent : list Request) : list element * list Request :=
  if str_not api_key
  then ([ st_error "⚠️ Please enter your Gemini API key" ], sent)
  else if str_not text_input
  then ([ st_error "⚠️ Please enter some text to convert" ], sent)
  else
    let '((audio_data, error), sent') :=
      generate_speech net api_key text_input (Some selected_voice) sent in
    (show_result audio_data error, sent').

(** What a run renders down to the button, whatever the button returns. *)
Definition form (api_key text_input : string) : list element :=
  [ st_markdown "### Enter Text to Convert";
    st_info "💡 Recommended: Keep text under 2000 characters for best results. The model supports up to ~32k tokens but may truncate longer audio." ]
  ++ character_counter text_input
  ++ [ st_button "🎵 Generate Speech" (str_not api_key || str_not text_input) ].

Definition page (net : Network) (api_key selected_voice text_input : string)
    (pressed : bool) (sent : list Request) : list element * list Request :=
  if pressed
  then
    let '(shown, sent') := on_generate net api_key selected_voice text_input sent in
    (form api_key text_input ++ shown, sent')
  else (form api_key text_input, sent).

(** More fields of the 44-byte header. *)
Definition riff_size_field : bytes -> Z := header_field 4 4.
Definition format_tag_field : bytes -> Z := header_field 2 20.
Definition byte_rate_field : bytes -> Z := header_field 4 28.
Definition block_align_field : bytes -> Z := header_field 2 32.

(** JSON values that are no container: [in] and [len] raise on them. *)
Definition is_scalar (v : json) : bool :=
  match v with
  | JNull | JBool _ | JInt _ | JFloat _ => true
  | _ => false
  end.

(** * Properties *)

(** ** Bytes, [struct] and [BytesIO] *)

Lemma len_nonneg {A : Type} (l : list A) : 0 <= len l.
Proof. unfold len. lia. Qed.

Lemma len_app {A : Type} (a b : list A) : len (a ++ b) = len a + len b.
Proof. unfold len. rewrite length_app. lia. Qed.

Lemma len_zeros (n : Z) : 0 <= n -> len (zeros n) = n.
Proof. intros H. unfold len, zeros. rewrite repeat_length. lia. Qed.

Lemma le_bytes_length (n : nat) (v : Z) : List.length (le_bytes n v) = n.
Proof.
  revert v. induction n as [|n IH]; intros v; simpl.
  - reflexivity.
  - now rewrite IH.
Qed.

Lemma Z_of_byte_of_Z (z : Z) : Z_of_byte (byte_of_Z z) = z mod 256.
Proof.
  unfold Z_of_byte, byte_of_Z.
  assert (Hr : (Z.to_N (z mod 256) < 256)%N).
  { pose proof (Z.mod_pos_bound z 256 ltac:(lia)). lia. }
  destruct (Byte.of_N (Z.to_N (z mod 256))) as [b|] eqn:E.
  - apply Byte.to_of_N in E. rewrite E.
    pose proof (Z.mod_pos_bound z 256 ltac:(lia)). lia.
  - apply Byte.of_N_None_iff in E. lia.
Qed.

Lemma le_value_le_bytes (n : nat) (v : Z) :
  le_value (le_bytes n v) = v mod 2 ^ (8 * Z.of_nat n).
Proof.
  revert v. induction n as [|n IH]; intros v.
  - simpl. now rewrite Z.mod_1_r.
  - cbn [le_bytes le_value]. rewrite Z_of_byte_of_Z, IH.
    replace (8 * Z.of_nat (S n)) with (8 + 8 * Z.of_nat n) by lia.
    rewrite Z.pow_add_r by lia. change (2 ^ 8) with 256.
    rewrite Z.rem_mul_r by lia. reflexivity.
Qed.

Lemma le_value_le_bytes_small (n : nat) (v : Z) :
  0 <= v < 2 ^ (8 * Z.of_nat n) -> le_value (le_bytes n v) = v.
Proof. intros H. rewrite le_value_le_bytes. now apply Z.mod_small. Qed.

Lemma pack_L_ok (v : Z) :
  0 <= v <= UINT32_MAX -> pack_unsigned "L" 4 v = ok (le_bytes 4 v).
Proof.
  unfold UINT32_MAX. intros H. unfold pack_unsigned.
  change (2 ^ (8 * Z.of_nat 4) - 1) with 4294967295. cbv zeta.
  destruct (Z.leb_spec 0 v); [|lia].
  destruct (Z.leb_spec v 4294967295); [|lia].
  reflexivity.
Qed.

Lemma pack_L_overflow (v : Z) :
  UINT32_MAX < v ->
  pack_unsigned "L" 4 v
  = raise (struct_error "'L' format requires 0 <= number <= 4294967295").
Proof.
  unfold UINT32_MAX. intros H. unfold pack_unsigned.
  change (2 ^ (8 * Z.of_nat 4) - 1) with 4294967295. cbv zeta.
  destruct (Z.leb_spec v 4294967295); [lia|].
  rewrite andb_false_r. reflexivity.
Qed.

Lemma BytesIO_write_append (b d : bytes) :
  BytesIO_write (mkBytesIO b (len b)) d = mkBytesIO (b ++ d) (len b + len d).
Proof.
  unfold BytesIO_write. cbn [buf pos].
  rewrite Z.sub_diag. cbn [Z.to_nat repeat]. rewrite app_nil_r.
  unfold len at 1. rewrite Nat2Z.id, firstn_all.
  rewrite skipn_all2; [now rewrite app_nil_r|].
  pose proof (len_nonneg d). unfold len in *. lia.
Qed.

Lemma BytesIO_write_patch (a old c d : bytes) :
  List.length old = List.length d ->
  BytesIO_write (mkBytesIO (a ++ old ++ c) (len a)) d
  = mkBytesIO (a ++ d ++ c) (len a + len d).
Proof.
  intros Hl. unfold BytesIO_write. cbn [buf pos].
  replace (Z.to_nat (len a - len (a ++ old ++ c))) with 0%nat
    by (rewrite !len_app; pose proof (len_nonneg old); pose proof (len_nonneg c); lia).
  cbn [repeat]. rewrite app_nil_r.
  unfold len at 1. rewrite Nat2Z.id.
  rewrite firstn_app, firstn_all, Nat.sub_diag. cbn [firstn]. rewrite app_nil_r.
  replace (Z.to_nat (len a + len d)) with (List.length a + List.length old)%nat
    by (unfold len; lia).
  rewrite skipn_app, skipn_all2 by lia. cbn [app].
  replace (List.length a + List.length old - List.length a)%nat
    with (List.length old) by lia.
  rewrite skipn_app, skipn_all, Nat.sub_diag. reflexivity.
Qed.

(** ** The writer, run on the encoder's input *)

Lemma write_header_run (n : Z) :
  0 <= n -> 36 + n / 2 * 2 <= UINT32_MAX ->
  write_header n (mkHeap BytesIO_new params_set)
  = (ok tt, mkHeap (mkBytesIO (wav_header (n / 2 * 2)) 44)
              (header_out (n / 2) 0 0 (n / 2 * 2))).
Proof.
  intros Hn Hb.
  assert (Hd : 0 <= n / 2 * 2) by (pose proof (Z.div_pos n 2); lia).
  unfold write_header, bind, file_write, self, update, file_tell, lift, ret.
  cbn [wav_buffer wav_file w_nframes params_set Z.eqb].
  cbn -[Z.add Z.mul Z.div struct_pack].
  change (1 * 2) with 2. rewrite Z.mul_1_r.
  cbn [struct_pack pack_one rbind].
  rewrite !pack_L_ok by (unfold UINT32_MAX in *; lia).
  unfold wav_header, riff_header.
  set (d := n / 2 * 2) in *. set (r := 36 + d) in *. clearbody r d.
  set (q := n / 2). clearbody q.
  cbn -[byte_of_Z Z.div].
  reflexivity.
Qed.

Lemma riff_header_patch_riff (r r' d : Z) (S : bytes) :
  BytesIO_write (mkBytesIO (riff_header r d ++ S) 4) (le_bytes 4 r')
  = mkBytesIO (riff_header r' d ++ S) 8.
Proof.
  unfold riff_header. rewrite <- !app_assoc.
  apply (BytesIO_write_patch (bytes_of_string "RIFF") (le_bytes 4 r)).
  now rewrite !le_bytes_length.
Qed.

Lemma riff_header_patch_data (r d d' : Z) (S : bytes) :
  BytesIO_write (mkBytesIO (riff_header r d ++ S) 40) (le_bytes 4 d')
  = mkBytesIO (riff_header r d' ++ S) 44.
Proof.
  pose proof (BytesIO_write_patch (firstn 40 (riff_header r d)) (le_bytes 4 d) S (le_bytes 4 d')) as P.
  rewrite !le_bytes_length in P. specialize (P eq_refl).
  exact P.
Qed.

Lemma even_or_odd_len (n : Z) : 0 <= n -> n / 2 * 2 = n \/ n / 2 * 2 = n - 1.
Proof. intros H. pose proof (Z.mod_pos_bound n 2 ltac:(lia)). pose proof (Z.div_mod n 2 ltac:(lia)). lia. Qed.


Lemma bind_run_ok {A B : Type} (m : M A) (k : A -> M B) (h h' : Heap) (a : A) :
  m h = (ok a, h') -> bind m k h = k a h'.
Proof. intros E. unfold bind. now rewrite E. Qed.

Lemma bind_run_raise {A B : Type} (m : M A) (k : A -> M B) (h h' : Heap) (e : exn) :
  m h = (raise e, h') -> bind m k h = (raise e, h').
Proof. intros E. unfold bind. now rewrite E. Qed.

Lemma ensure_header_written_first (n : Z) :
  0 <= n -> 36 + n / 2 * 2 <= UINT32_MAX ->
  ensure_header_written n (mkHeap BytesIO_new params_set)
  = (ok tt, mkHeap (mkBytesIO (wav_header (n / 2 * 2)) 44)
              (header_out (n / 2) 0 0 (n / 2 * 2))).
Proof.
  intros Hn Hb. unfold ensure_header_written.
  erewrite bind_run_ok by reflexivity.
  cbn [wav_file w_headerwritten params_set w_nchannels w_sampwidth w_framerate Z.eqb].
  now apply write_header_run.
Qed.


Lemma write_after_header (d : Z) (S : bytes) :
  BytesIO_write (mkBytesIO (wav_header d) 44) S
  = mkBytesIO (wav_header d ++ S) (44 + len S).
Proof. exact (BytesIO_write_append (wav_header d) S). Qed.

Lemma writeframesraw_run (S : bytes) :
  36 + len S / 2 * 2 <= UINT32_MAX ->
  writeframesraw S (mkHeap BytesIO_new params_set)
  = (ok tt, mkHeap (mkBytesIO (wav_header (len S / 2 * 2) ++ S) (44 + len S))
              (header_out (len S / 2) (len S) (len S / 2) (len S / 2 * 2))).
Proof.
  intros Hb. pose proof (len_nonneg S) as Hn.
  unfold writeframesraw.
  erewrite bind_run_ok by (now apply ensure_header_written_first).
  erewrite bind_run_ok by reflexivity.
  erewrite bind_run_ok by reflexivity.
  erewrite bind_run_ok by reflexivity.
  unfold update. cbn [wav_buffer wav_file].
  rewrite write_after_header.
  unfold header_out, set_nframeswritten, set_datawritten.
  cbn [w_file w_nchannels w_sampwidth w_framerate w_nframes w_nframeswritten
       w_datawritten w_datalength w_headerwritten w_form_length_pos w_data_length_pos].
  change (2 * 1) with 2. rewrite !Z.add_0_l. reflexivity.
Qed.

Lemma patchheader_run (S : bytes) (q d w : Z) :
  w <> d -> 0 <= w -> 36 + w <= UINT32_MAX ->
  patchheader (mkHeap (mkBytesIO (wav_header d ++ S) (44 + len S)) (header_out q w q d))
  = (ok tt, mkHeap (mkBytesIO (wav_header w ++ S) (44 + len S)) (header_out q w q w)).
Proof.
  intros Hne Hw Hb. unfold patchheader.
  erewrite bind_run_ok by reflexivity.
  cbn [wav_file header_out w_datawritten w_datalength w_form_length_pos w_data_length_pos].
  destruct (Z.eqb_spec w d) as [|_]; [contradiction|].
  erewrite bind_run_ok by reflexivity.
  erewrite bind_run_ok by reflexivity.
  cbn [struct_pack pack_one rbind].
  rewrite !pack_L_ok by (unfold UINT32_MAX in *; lia).
  cbn [rbind ok app].
  erewrite bind_run_ok by reflexivity.
  erewrite bind_run_ok by reflexivity.
  erewrite bind_run_ok by reflexivity.
  erewrite bind_run_ok by reflexivity.
  erewrite bind_run_ok by reflexivity.
  erewrite bind_run_ok.
  2:{ unfold file_seek, BytesIO_seek. cbn [wav_buffer wav_file BytesIO_tell pos buf].
      pose proof (len_nonneg S).
      destruct (Z.ltb_spec (44 + len S) 0); [lia|]. reflexivity. }
  unfold update. cbn [wav_buffer wav_file].
  rewrite !app_nil_r.
  unfold wav_header at 1.
  rewrite riff_header_patch_riff.
  change ({| buf := buf {| buf := riff_header (36 + w) d ++ S; pos := 8 |}; pos := 40 |})
    with (mkBytesIO (riff_header (36 + w) d ++ S) 40).
  rewrite riff_header_patch_data.
  reflexivity.
Qed.

Lemma writeframes_run (S : bytes) :
  len S <= MAX_PCM_LEN ->
  writeframes S (mkHeap BytesIO_new params_set)
  = (ok tt, mkHeap (mkBytesIO (wav_header (len S) ++ S) (44 + len S))
              (header_out (len S / 2) (len S) (len S / 2) (len S))).
Proof.
  intros Hb. pose proof (len_nonneg S) as Hn.
  unfold MAX_PCM_LEN, UINT32_MAX in Hb.
  unfold writeframes.
  erewrite bind_run_ok
    by (apply writeframesraw_run; unfold UINT32_MAX;
        destruct (even_or_odd_len (len S) Hn); lia).
  erewrite bind_run_ok by reflexivity.
  cbn [wav_file header_out w_datalength w_datawritten].
  destruct (Z.eqb_spec (len S / 2 * 2) (len S)) as [He|Ho]; cbn [negb].
  - rewrite He. reflexivity.
  - apply patchheader_run; unfold UINT32_MAX; lia.
Qed.

Lemma close_run (f : BytesIO) (q w : Z) :
  close (mkHeap f (header_out q w q w))
  = (ok tt, mkHeap f (set_file false (header_out q w q w))).
Proof.
  unfold close.
  erewrite bind_run_ok by reflexivity.
  cbn [wav_file header_out w_file].
  erewrite bind_run_ok by reflexivity.
  erewrite bind_run_ok by reflexivity.
  cbn [wav_file header_out w_datalength w_datawritten].
  rewrite Z.eqb_refl. reflexivity.
Qed.


Lemma encoder_body_run (S : bytes) :
  len S <= MAX_PCM_LEN ->
  (setnchannels 1 ;;; setsampwidth 2 ;;; setframerate 24000 ;;; writeframes S)
    (mkHeap BytesIO_new Wave_write_initfp)
  = (ok tt, mkHeap (mkBytesIO (wav_header (len S) ++ S) (44 + len S))
              (header_out (len S / 2) (len S) (len S / 2) (len S))).
Proof.
  intros Hb.
  rewrite (bind_run_ok _ _ _
             (mkHeap BytesIO_new (set_nchannels 1 Wave_write_initfp)) tt)
    by reflexivity.
  rewrite (bind_run_ok _ _ _
             (mkHeap BytesIO_new (set_sampwidth 2 (set_nchannels 1 Wave_write_initfp))) tt)
    by reflexivity.
  rewrite (bind_run_ok _ _ _ (mkHeap BytesIO_new params_set) tt) by reflexivity.
  now apply writeframes_run.
Qed.

(** Within the limit the encoder returns the header that declares [len S],
    followed by [S]: for an odd length the header first declares the whole
    frames and is then patched to the bytes written. *)
Theorem convert_l16_to_wav_ok (S : bytes) :
  len S <= MAX_PCM_LEN ->
  convert_l16_to_wav S = ok (wav_header (len S) ++ S).
Proof.
  intros Hb. unfold convert_l16_to_wav, with_wave_open. cbv zeta.
  rewrite encoder_body_run by assumption.
  rewrite close_run. reflexivity.
Qed.

Lemma write_header_overflow (n : Z) :
  UINT32_MAX < 36 + n / 2 * 2 ->
  write_header n (mkHeap BytesIO_new params_set)
  = (raise overflow, mkHeap (mkBytesIO (bytes_of_string "RIFF") 4) (header_failed (n / 2))).
Proof.
  intros Hb.
  unfold write_header, bind, file_write, self, update, file_tell, lift, ret.
  cbn [wav_buffer wav_file w_nframes params_set Z.eqb].
  cbn -[Z.add Z.mul Z.div struct_pack].
  change (1 * 2) with 2. rewrite Z.mul_1_r.
  cbn [struct_pack pack_one rbind].
  rewrite pack_L_overflow by assumption.
  reflexivity.
Qed.

Lemma write_header_overflow_again (n q : Z) (f : BytesIO) :
  q <> 0 -> UINT32_MAX < 36 + q * 2 ->
  exists h, write_header n (mkHeap f (header_failed q)) = (raise overflow, h).
Proof.
  intros Hq Hb.
  unfold write_header, bind, file_write, self, update, file_tell, lift, ret.
  cbn [wav_buffer wav_file w_nframes header_failed].
  destruct (Z.eqb_spec q 0) as [|_]; [contradiction|].
  cbn -[Z.add Z.mul Z.div struct_pack BytesIO_write].
  destruct (Z.eqb_spec q 0) as [|_]; [contradiction|].
  cbn -[Z.add Z.mul Z.div struct_pack BytesIO_write].
  rewrite Z.mul_1_r.
  cbn [struct_pack pack_one rbind].
  rewrite pack_L_overflow by assumption.
  eexists. reflexivity.
Qed.

Lemma writeframes_overflow (S : bytes) :
  UINT32_MAX < 36 + len S / 2 * 2 ->
  writeframes S (mkHeap BytesIO_new params_set)
  = (raise overflow,
     mkHeap (mkBytesIO (bytes_of_string "RIFF") 4) (header_failed (len S / 2))).
Proof.
  intros Hb. unfold writeframes.
  apply bind_run_raise. unfold writeframesraw.
  apply bind_run_raise. unfold ensure_header_written.
  erewrite bind_run_ok by reflexivity.
  cbn [wav_file w_headerwritten params_set w_nchannels w_sampwidth w_framerate Z.eqb].
  now apply write_header_overflow.
Qed.

Lemma close_overflow (q : Z) (f : BytesIO) :
  q <> 0 -> UINT32_MAX < 36 + q * 2 ->
  exists h, close (mkHeap f (header_failed q)) = (raise overflow, h).
Proof.
  intros Hq Hb.
  destruct (write_header_overflow_again 0 q f Hq Hb) as [h Hh].
  unfold close.
  erewrite bind_run_ok by reflexivity.
  cbn [wav_file header_failed w_file].
  erewrite bind_run_raise.
  2:{ unfold ensure_header_written. erewrite bind_run_ok by reflexivity.
      cbn [wav_file w_headerwritten header_failed w_nchannels w_sampwidth w_framerate Z.eqb].
      exact Hh. }
  eexists. reflexivity.
Qed.

(** Past the limit [struct.pack] refuses the RIFF length; [close], run by
    the [with] statement, tries the header again and raises the same error. *)
Theorem convert_l16_to_wav_overflow (S : bytes) :
  MAX_PCM_LEN < len S -> convert_l16_to_wav S = raise overflow.
Proof.
  intros Hb. unfold MAX_PCM_LEN, UINT32_MAX in Hb.
  pose proof (even_or_odd_len (len S) (len_nonneg S)) as Hp.
  assert (Hq : UINT32_MAX < 36 + len S / 2 * 2) by (unfold UINT32_MAX; lia).
  unfold convert_l16_to_wav, with_wave_open. cbv zeta.
  rewrite (bind_run_ok _ _ _
             (mkHeap BytesIO_new (set_nchannels 1 Wave_write_initfp)) tt)
    by reflexivity.
  rewrite (bind_run_ok _ _ _
             (mkHeap BytesIO_new (set_sampwidth 2 (set_nchannels 1 Wave_write_initfp))) tt)
    by reflexivity.
  rewrite (bind_run_ok _ _ _ (mkHeap BytesIO_new params_set) tt) by reflexivity.
  rewrite writeframes_overflow by exact Hq.
  destruct (close_overflow (len S / 2) (mkBytesIO (bytes_of_string "RIFF") 4))
    as [h Hh]; [lia | exact Hq |].
  unfold raise in *. rewrite Hh. reflexivity.
Qed.

(** ** The reader, run on the encoder's output *)

Lemma firstn_length_app {A : Type} (n : nat) (a b : list A) :
  List.length a = n -> firstn n (a ++ b) = a.
Proof.
  intros <-. rewrite <- (Nat.add_0_r (List.length a)), firstn_app_2.
  cbn [firstn]. apply app_nil_r.
Qed.

Lemma skipn_length_app {A : Type} (n : nat) (a b : list A) :
  List.length a = n -> skipn n (a ++ b) = b.
Proof.
  intros <-. rewrite skipn_app, skipn_all, Nat.sub_diag. reflexivity.
Qed.

Lemma Chunk_open_app (name sz rest : bytes) :
  List.length name = 4%nat -> List.length sz = 4%nat ->
  Chunk_open (name ++ sz ++ rest)
  = ok (mkChunk name (le_value sz) (firstn (Z.to_nat (le_value sz)) rest)).
Proof.
  intros Hname Hsz. unfold Chunk_open.
  rewrite (firstn_length_app 4 name) by assumption.
  rewrite Hname. cbn [Nat.ltb Nat.leb].
  rewrite (skipn_length_app 4 name) by assumption.
  rewrite (firstn_length_app 4 sz) by assumption.
  replace (skipn 8 (name ++ sz ++ rest)) with rest.
  2:{ rewrite app_assoc. symmetry. apply skipn_length_app.
      rewrite length_app. lia. }
  unfold unpack_unsigned. rewrite Hsz. cbn [Nat.ltb Nat.leb].
  rewrite <- Hsz, firstn_all. reflexivity.
Qed.


Lemma firstn_len {A : Type} (l : list A) : firstn (Z.to_nat (len l)) l = l.
Proof. unfold len. rewrite Nat2Z.id. apply firstn_all. Qed.

Lemma wav_file_layout (S : bytes) :
  wav_header (len S) ++ S
  = bytes_of_string "RIFF" ++ le_bytes 4 (36 + len S)
    ++ (bytes_of_string "WAVE" ++ fmt_chunk ++ data_chunk S).
Proof. reflexivity. Qed.

Lemma Chunk_open_data (S : bytes) :
  len S <= UINT32_MAX ->
  Chunk_open (data_chunk S) = ok (mkChunk (bytes_of_string "data") (len S) S).
Proof.
  intros Hb. unfold data_chunk.
  rewrite Chunk_open_app by (try reflexivity; apply le_bytes_length).
  rewrite le_value_le_bytes_small
    by (pose proof (len_nonneg S); unfold UINT32_MAX in Hb; change (2 ^ (8 * Z.of_nat 4)) with 4294967296; lia).
  now rewrite firstn_len.
Qed.

Lemma Chunk_open_fmt (rest : bytes) :
  Chunk_open (fmt_chunk ++ rest) = ok (mkChunk (bytes_of_string "fmt ") 16 fmt_body).
Proof.
  unfold fmt_chunk. rewrite <- !app_assoc.
  rewrite Chunk_open_app by reflexivity.
  change (le_value (le_bytes 4 16)) with 16.
  change (Z.to_nat 16) with 16%nat.
  now rewrite (firstn_length_app 16 fmt_body).
Qed.

Lemma read_fmt_chunk_mono16 :
  read_fmt_chunk (mkChunk (bytes_of_string "fmt ") 16 fmt_body) = ok fmt_mono16.
Proof. reflexivity. Qed.

Lemma read_chunks_at_fmt (k : nat) (r off : Z) (riff rest : bytes) (fmt : option Fmt) :
  skipn (Z.to_nat off) riff = fmt_chunk ++ rest ->
  off + 24 <= r ->
  read_chunks (Datatypes.S k) r riff off fmt
  = read_chunks k r riff (off + 24) (Some fmt_mono16).
Proof.
  intros Hs Hr. cbn [read_chunks]. rewrite Hs, Chunk_open_fmt.
  unfold ok at 1. cbv beta iota.
  change (bytes_eqb (chunkname (mkChunk (bytes_of_string "fmt ") 16 fmt_body))
            (bytes_of_string "fmt ")) with true.
  cbv iota.
  rewrite read_fmt_chunk_mono16. cbn [rbind ok].
  change (chunk_extent (mkChunk (bytes_of_string "fmt ") 16 fmt_body)) with 24.
  destruct (Z.ltb_spec r (off + 24)) as [Hlt|_]; [lia|].
  reflexivity.
Qed.

Lemma read_chunks_at_data (k : nat) (r off : Z) (riff S : bytes) (f : Fmt) :
  skipn (Z.to_nat off) riff = data_chunk S ->
  len S <= UINT32_MAX ->
  read_chunks (Datatypes.S k) r riff off (Some f)
  = ok (mkWave_read f (len S / f_framesize f)
          (mkChunk (bytes_of_string "data") (len S) S)).
Proof.
  intros Hs Hb. cbn [read_chunks]. rewrite Hs, Chunk_open_data by assumption.
  reflexivity.
Qed.

Lemma read_chunks_wav (k : nat) (S : bytes) :
  36 + len S <= UINT32_MAX ->
  read_chunks (Datatypes.S (Datatypes.S k)) (36 + len S)
    (bytes_of_string "WAVE" ++ fmt_chunk ++ data_chunk S) 4 None
  = ok (mkWave_read fmt_mono16 (len S / 2) (mkChunk (bytes_of_string "data") (len S) S)).
Proof.
  intros Hb. pose proof (len_nonneg S) as Hp.
  rewrite (read_chunks_at_fmt _ _ _ _ (data_chunk S)).
  - apply read_chunks_at_data.
    + rewrite app_assoc. now apply (skipn_length_app 28).
    + unfold UINT32_MAX in *. lia.
  - now apply (skipn_length_app 4).
  - lia.
Qed.

Lemma rbind_ok {A B : Type} (a : A) (k : A -> result B) : rbind (ok a) k = k a.
Proof. reflexivity. Qed.

Lemma Wave_read_initfp_wav_file (S : bytes) :
  len S <= MAX_PCM_LEN ->
  Wave_read_initfp (wav_header (len S) ++ S)
  = ok (mkWave_read fmt_mono16 (len S / 2) (mkChunk (bytes_of_string "data") (len S) S)).
Proof.
  intros Hb. unfold MAX_PCM_LEN in Hb. pose proof (len_nonneg S) as Hp.
  unfold Wave_read_initfp.
  rewrite length_app. change (List.length (wav_header (len S))) with 44%nat.
  cbn [Nat.add].
  rewrite wav_file_layout.
  rewrite Chunk_open_app by (try reflexivity; apply le_bytes_length).
  rewrite le_value_le_bytes_small
    by (unfold UINT32_MAX in Hb; change (2 ^ (8 * Z.of_nat 4)) with 4294967296; lia).
  rewrite rbind_ok. cbn [chunkname chunk_body chunksize].
  change (bytes_eqb (bytes_of_string "RIFF") (bytes_of_string "RIFF")) with true.
  cbn [negb].
  replace (firstn (Z.to_nat (36 + len S))
             (bytes_of_string "WAVE" ++ fmt_chunk ++ data_chunk S))
    with (bytes_of_string "WAVE" ++ fmt_chunk ++ data_chunk S).
  2:{ symmetry. apply firstn_all2. unfold data_chunk. rewrite !length_app.
      rewrite le_bytes_length.
      change (List.length (bytes_of_string "WAVE")) with 4%nat.
      change (List.length (bytes_of_string "data")) with 4%nat.
      change (List.length fmt_chunk) with 24%nat.
      unfold len. lia. }
  rewrite (firstn_length_app 4 (bytes_of_string "WAVE")) by reflexivity.
  change (bytes_eqb (bytes_of_string "WAVE") (bytes_of_string "WAVE")) with true.
  cbn [negb].
  apply read_chunks_wav. lia.
Qed.

(** The reader finds the format chunk, then the data chunk, and returns the
    whole frames of [S]. *)
Theorem wav_decode_wav_file (S : bytes) :
  len S <= MAX_PCM_LEN ->
  wav_decode (wav_header (len S) ++ S)
  = ok (mkDecoded 1 24000 16 (firstn (Z.to_nat (len S / 2 * 2)) S)).
Proof.
  intros Hb. unfold wav_decode.
  rewrite Wave_read_initfp_wav_file by assumption.
  rewrite rbind_ok.
  unfold readframes, getnframes, getnchannels, getframerate, getsampwidth.
  cbn [r_nframes r_fmt fmt_mono16 f_nchannels f_framerate f_sampwidth f_framesize
       r_data_chunk chunk_body].
  change (8 * 2) with 16.
  destruct (Z.eqb_spec (len S / 2) 0) as [E|E].
  - rewrite E. reflexivity.
  - reflexivity.
Qed.

(** ** The chunk loop and its fuel *)

Lemma le_value_nonneg (b : bytes) : 0 <= le_value b.
Proof.
  induction b as [|x b IH]; cbn [le_value]; [lia|].
  unfold Z_of_byte. lia.
Qed.

Lemma Chunk_open_short (file : bytes) :
  len file < 8 -> Chunk_open file = raise EOFError.
Proof.
  unfold len. intros H. unfold Chunk_open.
  destruct (Nat.ltb_spec (List.length (firstn 4 file)) 4) as [|H4]; [reflexivity|].
  unfold unpack_unsigned.
  destruct (Nat.ltb_spec (List.length (firstn 4 (skipn 4 file))) 4) as [|H8];
    [reflexivity|].
  rewrite length_firstn, length_skipn in H8. lia.
Qed.

Lemma Chunk_open_extent (file : bytes) (c : Chunk) :
  Chunk_open file = ok c -> 8 <= chunk_extent c.
Proof.
  unfold Chunk_open, unpack_unsigned, chunk_extent.
  destruct (List.length (firstn 4 file) <? 4)%nat; [discriminate|].
  destruct (List.length (firstn 4 (skipn 4 file)) <? 4)%nat; [discriminate|].
  intros [= <-]. cbn [chunksize].
  match goal with
  | |- context [le_value ?b] =>
      pose proof (le_value_nonneg b);
      pose proof (Z.mod_pos_bound (le_value b) 2 ltac:(lia))
  end.
  lia.
Qed.

(** The chunk loop does not depend on its fuel once the fuel covers the
    bytes left: every round consumes a header of eight bytes at least. *)
Lemma read_chunks_enough_fuel (fuel k : nat) (riff_size off : Z) (riff : bytes)
    (fmt : option Fmt) :
  0 <= off ->
  len riff < off + 8 * Z.of_nat fuel ->
  read_chunks (fuel + k) riff_size riff off fmt
  = read_chunks fuel riff_size riff off fmt.
Proof.
  revert off fmt. induction fuel as [|fuel IH]; intros off fmt Ho Hl.
  - cbn [Nat.add read_chunks]. destruct k as [|k]; [reflexivity|].
    cbn [read_chunks]. rewrite Chunk_open_short; [reflexivity|].
    unfold len in *. rewrite length_skipn. lia.
  - cbn [Nat.add read_chunks].
    destruct (Chunk_open (skipn (Z.to_nat off) riff)) as [e|chunk] eqn:E;
      [reflexivity|].
    apply Chunk_open_extent in E.
    assert (Hn : 0 <= off + chunk_extent chunk) by lia.
    assert (Hm : len riff < off + chunk_extent chunk + 8 * Z.of_nat fuel) by lia.
    destruct (bytes_eqb (chunkname chunk) (bytes_of_string "fmt ")).
    + destruct (read_fmt_chunk chunk) as [e|f]; cbn [rbind]; [reflexivity|].
      now rewrite (IH _ _ Hn Hm).
    + now rewrite (IH _ _ Hn Hm).
Qed.

Lemma Chunk_open_body (file : bytes) (c : Chunk) :
  Chunk_open file = ok c ->
  chunk_body c = firstn (Z.to_nat (chunksize c)) (skipn 8 file).
Proof.
  unfold Chunk_open, unpack_unsigned.
  destruct (List.length (firstn 4 file) <? 4)%nat; [discriminate|].
  destruct (List.length (firstn 4 (skipn 4 file)) <? 4)%nat; [discriminate|].
  intros [= <-]. reflexivity.
Qed.

(** The fuel [Wave_read_initfp] gives the loop is enough: more changes
    nothing. *)
Lemma Wave_read_initfp_fuel (file : bytes) (outer : Chunk) (k : nat) :
  Chunk_open file = ok outer ->
  read_chunks (Datatypes.S (List.length file) + k) (chunksize outer)
    (chunk_body outer) 4 None
  = read_chunks (Datatypes.S (List.length file)) (chunksize outer)
      (chunk_body outer) 4 None.
Proof.
  intros E. apply read_chunks_enough_fuel; [lia|].
  rewrite (Chunk_open_body _ _ E). unfold len.
  rewrite length_firstn, length_skipn. lia.
Qed.

(** ** The request component, step by step *)

(** Outside 400..599 a status passes, whether it is a 2xx status or not. *)
Lemma raise_for_status_passes (r : Response) :
  status_code r < 400 \/ 600 <= status_code r -> raise_for_status r = ok tt.
Proof.
  intros H. unfold raise_for_status.
  destruct (Z.leb_spec 400 (status_code r)); cbn [andb].
  - destruct (Z.ltb_spec (status_code r) 500); [lia|].
    destruct (Z.leb_spec 500 (status_code r)); [|lia].
    destruct (Z.ltb_spec (status_code r) 600); [lia|]. reflexivity.
  - destruct (Z.leb_spec 500 (status_code r)); [lia|]. reflexivity.
Qed.


Lemma generate_speech_unfold (net : Network) (api_key text : string)
    (voice_name : option string) (sent : list Request) :
  generate_speech net api_key text voice_name sent
  = (match (response <- net sent (request_of api_key text voice_name) ;;
            _ <- raise_for_status response ;;
            reply <- json_body response ;;
            extract_audio reply) with
     | inr r => r
     | inl e => handle e
     end, sent ++ [request_of api_key text voice_name]).
Proof. reflexivity. Qed.

Lemma generate_speech_answered (net : Network) (api_key text : string)
    (voice_name : option string) (sent : list Request) (reply : json) :
  answers net sent (request_of api_key text voice_name) reply ->
  generate_speech net api_key text voice_name sent
  = (match extract_audio reply with inr r => r | inl e => handle e end,
     sent ++ [request_of api_key text voice_name]).
Proof.
  intros (resp & Hnet & Hst & Hjs).
  rewrite generate_speech_unfold, Hnet, rbind_ok, Hst, rbind_ok, Hjs, rbind_ok.
  reflexivity.
Qed.

Lemma len_cons_pos {A : Type} (x : A) (l : list A) : (0 <? len (x :: l)) = true.
Proof. apply Z.ltb_lt. unfold len. cbn [List.length]. lia. Qed.

Lemma and_then_Some {A B : Type} (o : option A) (k : A -> option B) (b : B) :
  and_then o k = Some b -> exists a, o = Some a /\ k a = Some b.
Proof. destruct o as [a|]; cbn; [eauto | discriminate]. Qed.

Lemma field_Some (key : string) (v x : json) :
  field key v = Some x -> exists items, v = JObject items /\ dict_get items key = Some x.
Proof. destruct v; cbn; try discriminate. eauto. Qed.

Lemma first_Some (v x : json) :
  first v = Some x -> exists rest, v = JArray (x :: rest).
Proof.
  destruct v as [| | | | |[|y rest]|]; cbn; try discriminate.
  intros [= ->]. eauto.
Qed.

Lemma lacks_key_inv (key : string) (v : json) :
  lacks_key key v -> exists items, v = JObject items /\ dict_get items key = None.
Proof. destruct v; cbn; try contradiction. eauto. Qed.

Lemma candidate0_inv (reply c : json) :
  candidate0 reply = Some c ->
  exists items rest,
    reply = JObject items /\ dict_get items "candidates" = Some (JArray (c :: rest)).
Proof.
  unfold candidate0. intros H.
  apply and_then_Some in H as (cands & Hf & Hc).
  apply field_Some in Hf as (items & -> & Hd).
  apply first_Some in Hc as (rest & ->). eauto.
Qed.

Lemma content_of_inv (reply ct : json) :
  content_of reply = Some ct ->
  exists c items, candidate0 reply = Some c /\ c = JObject items
                  /\ dict_get items "content" = Some ct.
Proof.
  unfold content_of. intros H.
  apply and_then_Some in H as (c & Hc & Hf).
  apply field_Some in Hf as (items & -> & Hd). eauto.
Qed.

Lemma part0_inv (reply p : json) :
  part0 reply = Some p ->
  exists ct items rest, content_of reply = Some ct /\ ct = JObject items
                        /\ dict_get items "parts" = Some (JArray (p :: rest)).
Proof.
  unfold part0. intros H.
  apply and_then_Some in H as (ps & H & Hp).
  apply and_then_Some in H as (ct & Hct & Hf).
  apply field_Some in Hf as (items & -> & Hd).
  apply first_Some in Hp as (rest & ->). eauto 6.
Qed.

(** The code after a step of the path, as [extract_audio] continues there. *)
Lemma extract_audio_candidate0 (reply c : json) :
  candidate0 reply = Some c ->
  extract_audio reply
  = (content <- getitem c "content" ;;
     parts <- getitem content "parts" ;;
     part <- getitem0 parts ;;
     inline_data <- get part "inlineData" ;;
     if truthy inline_data
     then
       data <- getitem inline_data "data" ;;
       audio_data <- b64decode data ;;
       mime_type <- getitem inline_data "mimeType" ;;
       is_l16 <- py_in "audio/L16" mime_type ;;
       is_raw <- (if is_l16 then ok true else py_in "audio/pcm" mime_type) ;;
       audio_data <- (if is_raw then convert_l16_to_wav audio_data else ok audio_data) ;;
       ok (Some audio_data, None)
     else ok (None, Some no_audio)).
Proof.
  intros H. apply candidate0_inv in H as (items & rest & -> & Hd).
  unfold extract_audio.
  cbn [py_in getitem]. rewrite Hd.
  cbn [rbind ok py_len]. rewrite len_cons_pos.
  reflexivity.
Qed.

Lemma extract_audio_content (reply ct : json) :
  content_of reply = Some ct ->
  extract_audio reply
  = (parts <- getitem ct "parts" ;;
     part <- getitem0 parts ;;
     inline_data <- get part "inlineData" ;;
     if truthy inline_data
     then
       data <- getitem inline_data "data" ;;
       audio_data <- b64decode data ;;
       mime_type <- getitem inline_data "mimeType" ;;
       is_l16 <- py_in "audio/L16" mime_type ;;
       is_raw <- (if is_l16 then ok true else py_in "audio/pcm" mime_type) ;;
       audio_data <- (if is_raw then convert_l16_to_wav audio_data else ok audio_data) ;;
       ok (Some audio_data, None)
     else ok (None, Some no_audio)).
Proof.
  intros H. apply content_of_inv in H as (c & items & Hc & -> & Hd).
  rewrite (extract_audio_candidate0 _ _ Hc).
  cbn [getitem]. rewrite Hd, rbind_ok. reflexivity.
Qed.

Lemma extract_audio_part0 (reply p : json) :
  part0 reply = Some p ->
  extract_audio reply
  = (inline_data <- get p "inlineData" ;;
     if truthy inline_data
     then
       data <- getitem inline_data "data" ;;
       audio_data <- b64decode data ;;
       mime_type <- getitem inline_data "mimeType" ;;
       is_l16 <- py_in "audio/L16" mime_type ;;
       is_raw <- (if is_l16 then ok true else py_in "audio/pcm" mime_type) ;;
       audio_data <- (if is_raw then convert_l16_to_wav audio_data else ok audio_data) ;;
       ok (Some audio_data, None)
     else ok (None, Some no_audio)).
Proof.
  intros H. apply part0_inv in H as (ct & items & rest & Hct & -> & Hd).
  rewrite (extract_audio_content _ _ Hct).
  cbn [getitem]. rewrite Hd, rbind_ok. cbn [getitem0]. rewrite rbind_ok.
  reflexivity.
Qed.

Lemma extract_audio_missing (m : missing) (reply : json) :
  lacks_audio m reply ->
  match extract_audio reply with inr r => r | inl e => handle e end
  = returned_when m.
Proof.
  destruct m; cbn [lacks_audio returned_when].
  - intros H. apply lacks_key_inv in H as (items & -> & Hd).
    unfold extract_audio. cbn [py_in]. rewrite Hd. reflexivity.
  - intros H. apply field_Some in H as (items & -> & Hd).
    unfold extract_audio. cbn [py_in getitem]. rewrite Hd. reflexivity.
  - intros (c & Hc & H). apply lacks_key_inv in H as (items & -> & Hd).
    rewrite (extract_audio_candidate0 _ _ Hc). cbn [getitem]. rewrite Hd.
    reflexivity.
  - intros (ct & Hc & H). apply lacks_key_inv in H as (items & -> & Hd).
    rewrite (extract_audio_content _ _ Hc). cbn [getitem]. rewrite Hd.
    reflexivity.
  - intros (ct & Hc & H). apply field_Some in H as (items & -> & Hd).
    rewrite (extract_audio_content _ _ Hc). cbn [getitem]. rewrite Hd.
    reflexivity.
  - intros (p & Hp & H). apply lacks_key_inv in H as (items & -> & Hd).
    rewrite (extract_audio_part0 _ _ Hp). cbn [get]. rewrite Hd.
    reflexivity.
Qed.

Lemma extract_audio_shape (reply : json) (r : option bytes * option string) :
  extract_audio reply = ok r ->
  (exists audio, r = (Some audio, None)) \/ r = (None, Some no_audio).
Proof.
  unfold extract_audio, rbind, ok. intros H.
  repeat match type of H with
         | match ?x with _ => _ end = _ => destruct x; try discriminate H
         end;
    injection H as <-; eauto.
Qed.

Lemma handle_shape (e : exn) : exists msg, handle e = (None, Some msg).
Proof. unfold handle. destruct (is_RequestException e); eauto. Qed.

Lemma header_fields (n : Z) (S : bytes) :
  channel_field (wav_header n ++ S) = 1
  /\ sample_rate_field (wav_header n ++ S) = 24000
  /\ bit_depth_field (wav_header n ++ S) = 16
  /\ data_block (wav_header n ++ S) = S.
Proof. repeat split. Qed.

Lemma data_size_field_wav (n : Z) (S : bytes) :
  0 <= n <= UINT32_MAX -> data_size_field (wav_header n ++ S) = n.
Proof.
  intros H.
  change (data_size_field (wav_header n ++ S)) with (le_value (le_bytes 4 n)).
  apply le_value_le_bytes_small.
  unfold UINT32_MAX in H. change (2 ^ (8 * Z.of_nat 4)) with 4294967296. lia.
Qed.

Lemma firstn_even (S : bytes) :
  len S mod 2 = 0 -> firstn (Z.to_nat (len S / 2 * 2)) S = S.
Proof.
  intros He. replace (len S / 2 * 2) with (len S).
  - apply firstn_len.
  - pose proof (Z.div_mod (len S) 2 ltac:(lia)). lia.
Qed.

Lemma a2b_base64_loop_quads (n : nat) (out : bytes) :
  a2b_base64_loop (quads n) 0 0 0 out = ok (rev out ++ repeat x00 (3 * n)).
Proof.
  revert out. induction n as [|n IH]; intros out.
  - cbn. now rewrite app_nil_r.
  - cbn [quads]. 
    change (a2b_base64_loop (String "A" (String "A" (String "A" (String "A" (quads n))))) 0 0 0 out)
      with (a2b_base64_loop (quads n) 0 0 0 (x00 :: x00 :: x00 :: out)).
    rewrite IH. cbn [rev]. rewrite <- !app_assoc. cbn [app].
    replace (3 * S n)%nat with (S (S (S (3 * n)))) by lia.
    reflexivity.
Qed.

Lemma is_ascii_str_quads (n : nat) : is_ascii_str (quads n) = true.
Proof. induction n as [|n IH]; [reflexivity|]. cbn [quads is_ascii_str]. now rewrite IH. Qed.

Lemma b64decode_quads (n : Z) :
  0 <= n -> b64decode (JString (quads (Z.to_nat n))) = ok (zeros (3 * n)).
Proof.
  intros Hn. cbn [b64decode]. rewrite is_ascii_str_quads.
  unfold a2b_base64. rewrite a2b_base64_loop_quads. cbn [rev app].
  unfold zeros. replace (Z.to_nat (3 * n)) with (3 * Z.to_nat n)%nat by lia.
  reflexivity.
Qed.

Lemma inline_data_of_audio_reply (mime_type data : string) :
  inline_data_of (audio_reply mime_type data)
  = Some (JObject [ ("mimeType", JString mime_type); ("data", JString data) ]).
Proof. reflexivity. Qed.

Lemma extract_audio_inline_data (reply inline_data data mime_type : json) (audio : bytes) :
  inline_data_of reply = Some inline_data ->
  field "data" inline_data = Some data ->
  field "mimeType" inline_data = Some mime_type ->
  b64decode data = ok audio ->
  extract_audio reply
  = (is_l16 <- py_in "audio/L16" mime_type ;;
     is_raw <- (if is_l16 then ok true else py_in "audio/pcm" mime_type) ;;
     audio_data <- (if is_raw then convert_l16_to_wav audio else ok audio) ;;
     ok (Some audio_data, None)).
Proof.
  intros Hi Hd Hm Hb.
  unfold inline_data_of in Hi.
  apply and_then_Some in Hi as (p & Hp0 & Hf).
  rewrite (extract_audio_part0 _ _ Hp0).
  apply field_Some in Hf as (pitems & -> & Hpi).
  apply field_Some in Hd as (items & -> & Hdd).
  cbn [field] in Hm.
  cbn [get]. rewrite Hpi, rbind_ok.
  assert (Ht : truthy (JObject items) = true).
  { destruct items; [discriminate Hdd | reflexivity]. }
  rewrite Ht. cbn [getitem]. rewrite Hdd, Hm, rbind_ok, Hb, !rbind_ok.
  reflexivity.
Qed.

(** * The claims *)

(** ** The container encoder *)

(** C1, as amended: for every byte sequence [S] of even length that is at
    most [MAX_PCM_LEN] (4294967259) bytes long, [convert_l16_to_wav] returns
    a container, and decoding it with the reader of the [wave] module yields
    exactly [S] with channel count 1, sample rate 24000 and bit depth 16. *)
Theorem roundtrip_within_riff_limit (S : bytes) :
  len S mod 2 = 0 ->
  len S <= MAX_PCM_LEN ->
  exists w,
    convert_l16_to_wav S = ok w
    /\ wav_decode w = ok (mkDecoded 1 24000 16 S).
Proof.
  intros He Hb. exists (wav_header (len S) ++ S). split.
  - now apply convert_l16_to_wav_ok.
  - rewrite wav_decode_wav_file by assumption.
    now rewrite firstn_even.
Qed.

Lemma roundtrip_within_riff_limit_witness :
  exists w,
    convert_l16_to_wav [x01; x02; x03; x04] = ok w
    /\ wav_decode w = ok (mkDecoded 1 24000 16 [x01; x02; x03; x04]).
Proof.
  apply (roundtrip_within_riff_limit [x01; x02; x03; x04]).
  - reflexivity.
  - vm_compute. discriminate.
Defined.

(** C1 as stated fails: 4294967296 zero bytes have even length, and the
    encoder raises [struct.error] on them instead of returning a container. *)
Lemma roundtrip_fails_at_4GiB :
  len (zeros 4294967296) mod 2 = 0
  /\ convert_l16_to_wav (zeros 4294967296) = raise overflow.
Proof.
  rewrite len_zeros by lia. split.
  - reflexivity.
  - apply convert_l16_to_wav_overflow. rewrite len_zeros by lia.
    unfold MAX_PCM_LEN, UINT32_MAX. lia.
Qed.

(** C2, as amended: for every input [S] of at most [MAX_PCM_LEN] bytes the
    encoder returns a container whose declared data-chunk size is [len S]
    and whose data block is [S] verbatim. *)
Theorem data_chunk_declares_length (S : bytes) :
  len S <= MAX_PCM_LEN ->
  exists w,
    convert_l16_to_wav S = ok w
    /\ data_size_field w = len S
    /\ data_block w = S.
Proof.
  intros Hb. exists (wav_header (len S) ++ S). split; [|split].
  - now apply convert_l16_to_wav_ok.
  - apply data_size_field_wav. pose proof (len_nonneg S).
    unfold MAX_PCM_LEN in Hb. lia.
  - apply header_fields.
Qed.

Lemma data_chunk_declares_length_witness :
  exists w,
    convert_l16_to_wav [x0a; x0b; x0c] = ok w
    /\ data_size_field w = len [x0a; x0b; x0c]
    /\ data_block w = [x0a; x0b; x0c].
Proof.
  apply (data_chunk_declares_length [x0a; x0b; x0c]).
  vm_compute. discriminate.
Defined.

(** C2 as stated fails: on an input one byte longer than [MAX_PCM_LEN] no
    container is produced, the encoder raises. *)
Lemma no_container_past_limit :
  len (zeros 4294967260) = MAX_PCM_LEN + 1
  /\ convert_l16_to_wav (zeros 4294967260) = raise overflow.
Proof.
  rewrite len_zeros by lia. split.
  - reflexivity.
  - apply convert_l16_to_wav_overflow. rewrite len_zeros by lia.
    unfold MAX_PCM_LEN, UINT32_MAX. lia.
Qed.

(** C3: for 48000 zero bytes the encoder returns a container of exactly
    48044 bytes, the 44-byte header followed by the 48000 data bytes, whose
    sample-rate field is 24000, channel field 1 and bit-depth field 16. *)
Theorem hello_world_container :
  exists w,
    convert_l16_to_wav (zeros 48000) = ok w
    /\ len w = 48044
    /\ w = wav_header 48000 ++ zeros 48000
    /\ len (wav_header 48000) = 44
    /\ sample_rate_field w = 24000
    /\ channel_field w = 1
    /\ bit_depth_field w = 16.
Proof.
  assert (Hl : len (zeros 48000) = 48000) by (apply len_zeros; lia).
  exists (wav_header 48000 ++ zeros 48000).
  split; [|split; [|split; [|split]]].
  - rewrite <- Hl at 2. apply convert_l16_to_wav_ok.
    rewrite Hl. unfold MAX_PCM_LEN, UINT32_MAX. lia.
  - rewrite len_app, Hl. reflexivity.
  - reflexivity.
  - reflexivity.
  - pose proof (header_fields 48000 (zeros 48000)) as (Hc & Hr & Hd & _).
    exact (conj Hr (conj Hc Hd)).
Qed.

(** C8, as amended: every input of at most [MAX_PCM_LEN] bytes, of even or
    odd length, is accepted without validation: the encoder returns a
    container that holds the input verbatim, a trailing partial frame
    included, and a reader of that container gets the whole frames only. *)
Theorem partial_frame_tolerated (S : bytes) :
  len S <= MAX_PCM_LEN ->
  exists w,
    convert_l16_to_wav S = ok w
    /\ data_block w = S
    /\ wav_decode w
       = ok (mkDecoded 1 24000 16 (firstn (Z.to_nat (len S / 2 * 2)) S)).
Proof.
  intros Hb. exists (wav_header (len S) ++ S). split; [|split].
  - now apply convert_l16_to_wav_ok.
  - apply header_fields.
  - now apply wav_decode_wav_file.
Qed.

Lemma partial_frame_tolerated_witness :
  exists w,
    convert_l16_to_wav [x01; x02; x03] = ok w
    /\ data_block w = [x01; x02; x03]
    /\ wav_decode w = ok (mkDecoded 1 24000 16 [x01; x02]).
Proof.
  apply (partial_frame_tolerated [x01; x02; x03]).
  vm_compute. discriminate.
Defined.

(** C8 as stated fails: an input of odd length 4294967297 is not accepted,
    the encoder raises [struct.error]. *)
Lemma odd_input_past_limit_raises :
  len (zeros 4294967297) mod 2 = 1
  /\ convert_l16_to_wav (zeros 4294967297) = raise overflow.
Proof.
  rewrite len_zeros by lia. split.
  - reflexivity.
  - apply convert_l16_to_wav_overflow. rewrite len_zeros by lia.
    unfold MAX_PCM_LEN, UINT32_MAX. lia.
Qed.

(** ** The request component *)

(** When every component before the missing one has the type the path
    needs, the component that is missing decides the error string: see
    [returned_when]. *)
Lemma missing_component_outcome (net : Network) (api_key text : string)
    (voice_name : option string) (sent : list Request) (reply : json)
    (m : missing) :
  answers net sent (request_of api_key text voice_name) reply ->
  lacks_audio m reply ->
  generate_speech net api_key text voice_name sent
  = (returned_when m, sent ++ [request_of api_key text voice_name]).
Proof.
  intros Ha Hm. rewrite (generate_speech_answered _ _ _ _ _ _ Ha).
  now rewrite (extract_audio_missing _ _ Hm).
Qed.

(** C4 as stated fails: a reply whose first candidate has no [content] makes
    [generate_speech] return "Error: 'content'", which is not the specific
    string. *)
Lemma missing_content_is_generic_error :
  fst (generate_speech
         (always (mkResponse 200 "OK" "u"
                    (ok (JObject [ ("candidates", JArray [ JObject [] ]) ]))))
         "key" "Hello world" (Some "Kore") [])
  = (None, Some "Error: 'content'")
  /\ "Error: 'content'" <> no_audio.
Proof. split; [reflexivity | discriminate]. Qed.

(** C5, as amended: when the reply is a JSON object without a [candidates]
    key, or one whose [candidates] is an empty list, [generate_speech]
    returns the error string "No audio data in response" and no audio
    bytes. *)
Theorem no_candidates_no_audio (net : Network) (api_key text : string)
    (voice_name : option string) (sent : list Request) (reply : json) :
  answers net sent (request_of api_key text voice_name) reply ->
  lacks_key "candidates" reply \/ field "candidates" reply = Some (JArray []) ->
  fst (generate_speech net api_key text voice_name sent)
  = (None, Some "No audio data in response").
Proof.
  intros Ha Hm. rewrite (generate_speech_answered _ _ _ _ _ _ Ha). cbn [fst].
  destruct Hm as [Hm|Hm].
  - exact (extract_audio_missing candidates_key reply Hm).
  - exact (extract_audio_missing candidates_empty reply Hm).
Qed.

Lemma no_candidates_no_audio_witness :
  fst (generate_speech
         (always (mkResponse 200 "OK" "u"
                    (ok (JObject [ ("promptFeedback", JObject []) ]))))
         "key" "Hello world" (Some "Kore") [])
  = (None, Some "No audio data in response").
Proof.
  apply no_candidates_no_audio
    with (reply := JObject [ ("promptFeedback", JObject []) ]).
  - eexists. split; [reflexivity|]. split; reflexivity.
  - left. reflexivity.
Defined.

(** C5 as stated fails: the reply [5] is a response JSON without a
    [candidates] key, the membership test of line 65 raises on it, and
    [generate_speech] returns the generic error string. *)
Lemma number_reply_is_not_no_audio :
  fst (generate_speech (always (mkResponse 200 "OK" "u" (ok (JInt 5))))
         "key" "Hello world" (Some "Kore") [])
  = (None, Some "Error: argument of type 'int' is not iterable")
  /\ "Error: argument of type 'int' is not iterable" <> "No audio data in response".
Proof. split; [reflexivity | discriminate]. Qed.

(** C6: when the reply carries [inlineData] whose [mimeType] contains
    neither "audio/L16" nor "audio/pcm", [generate_speech] returns the
    base64-decoded bytes unchanged, without the container encoder. *)
Theorem other_mime_passes_through (net : Network) (api_key text : string)
    (voice_name : option string) (sent : list Request)
    (reply inline_data data : json) (mime_type : string) (audio : bytes) :
  answers net sent (request_of api_key text voice_name) reply ->
  inline_data_of reply = Some inline_data ->
  field "data" inline_data = Some data ->
  field "mimeType" inline_data = Some (JString mime_type) ->
  b64decode data = ok audio ->
  str_contains "audio/L16" mime_type = false ->
  str_contains "audio/pcm" mime_type = false ->
  fst (generate_speech net api_key text voice_name sent) = (Some audio, None).
Proof.
  intros Ha Hi Hd Hm Hb Hl Hp.
  rewrite (generate_speech_answered _ _ _ _ _ _ Ha). cbn [fst].
  unfold inline_data_of in Hi.
  apply and_then_Some in Hi as (p & Hp0 & Hf).
  rewrite (extract_audio_part0 _ _ Hp0).
  apply field_Some in Hf as (pitems & -> & Hpi).
  apply field_Some in Hd as (items & -> & Hdd).
  cbn [field] in Hm.
  cbn [get]. rewrite Hpi, rbind_ok.
  assert (Ht : truthy (JObject items) = true).
  { destruct items; [discriminate Hdd | reflexivity]. }
  rewrite Ht. cbn [getitem]. rewrite Hdd, Hm, rbind_ok, Hb, !rbind_ok.
  cbn [py_in]. rewrite Hl, rbind_ok, Hp. reflexivity.
Qed.

Lemma other_mime_passes_through_witness :
  fst (generate_speech
         (always (mkResponse 200 "OK" "u" (ok (audio_reply "audio/mpeg" "AAEC"))))
         "key" "Hello world" (Some "Kore") [])
  = (Some [x00; x01; x02], None).
Proof.
  apply other_mime_passes_through
    with (reply := audio_reply "audio/mpeg" "AAEC")
         (inline_data := JObject [ ("mimeType", JString "audio/mpeg");
                                   ("data", JString "AAEC") ])
         (data := JString "AAEC") (mime_type := "audio/mpeg").
  - eexists. split; [reflexivity|]. split; reflexivity.
  - reflexivity.
  - reflexivity.
  - reflexivity.
  - reflexivity.
  - reflexivity.
  - reflexivity.
Defined.

(** C7: every call of [generate_speech], whatever the key, text, voice and
    whatever the network raises or answers, returns either audio bytes and no
    error, or an error string and no audio: never both, never neither. *)
Theorem audio_or_error (net : Network) (api_key text : string)
    (voice_name : option string) (sent : list Request) :
  (exists audio,
      fst (generate_speech net api_key text voice_name sent) = (Some audio, None))
  \/ (exists error,
      fst (generate_speech net api_key text voice_name sent) = (None, Some error)).
Proof.
  rewrite generate_speech_unfold. cbn [fst].
  destruct (net sent (request_of api_key text voice_name)) as [e|resp];
    cbn [rbind]; [right; apply handle_shape|].
  destruct (raise_for_status resp) as [e|[]];
    cbn [rbind]; [right; apply handle_shape|].
  destruct (json_body resp) as [e|reply];
    cbn [rbind]; [right; apply handle_shape|].
  destruct (extract_audio reply) as [e|r] eqn:E; [right; apply handle_shape|].
  destruct (extract_audio_shape _ _ E) as [(audio & ->)| ->]; eauto.
Qed.

(** C9, as amended: when [requests.post] raises a [RequestException]
    (a connection error) or the response carries a 4xx or 5xx status,
    [generate_speech] returns no audio and "API Error: " followed by the
    description of the failure, after exactly one request; nothing
    propagates. *)
Theorem transport_failure_reported (net : Network) (api_key text : string)
    (voice_name : option string) (sent : list Request) (e : exn) :
  transport_failure (net sent (request_of api_key text voice_name)) e ->
  generate_speech net api_key text voice_name sent
  = ((None, Some ("API Error: " ++ str e)%string),
     sent ++ [request_of api_key text voice_name]).
Proof.
  intros H. rewrite generate_speech_unfold.
  remember (net sent (request_of api_key text voice_name)) as posted eqn:Ep.
  destruct H as [msg|resp Hs].
  - reflexivity.
  - rewrite rbind_ok. unfold raise_for_status, HTTPError.
    destruct (Z.leb_spec 400 (status_code resp)); [|lia].
    destruct (Z.ltb_spec (status_code resp) 500); cbn [andb].
    + reflexivity.
    + destruct (Z.leb_spec 500 (status_code resp)); [|lia].
      destruct (Z.ltb_spec (status_code resp) 600); [|lia].
      reflexivity.
Qed.

Lemma transport_failure_reported_witness :
  generate_speech (always (mkResponse 404 "Not Found" "u" (ok JNull)))
    "key" "Hello world" (Some "Kore") []
  = ((None, Some "API Error: 404 Client Error: Not Found for url: u"),
     [request_of "key" "Hello world" (Some "Kore")]).
Proof.
  apply (transport_failure_reported
           (always (mkResponse 404 "Not Found" "u" (ok JNull)))
           "key" "Hello world" (Some "Kore") []
           (HTTPError (mkResponse 404 "Not Found" "u" (ok JNull)))).
  apply (error_status (mkResponse 404 "Not Found" "u" (ok JNull))).
  split; [vm_compute; discriminate | reflexivity].
Defined.

(** C9 as stated fails: status 300 is not a 2xx status, yet
    [raise_for_status] lets it pass, and a reply that carries audio is
    returned as audio with no error. *)
Lemma status_300_returns_audio :
  fst (generate_speech
         (always (mkResponse 300 "Multiple Choices" "u"
                    (ok (audio_reply "audio/mpeg" "AAEC"))))
         "key" "Hello world" (Some "Kore") [])
  = (Some [x00; x01; x02], None).
Proof. reflexivity. Qed.

(** C10: a call that leaves the voice out sends one request whose payload
    carries "Puck" as [voiceName]. *)
Theorem default_voice_is_Puck (net : Network) (api_key text : string)
    (sent : list Request) :
  exists req,
    snd (generate_speech net api_key text None sent) = sent ++ [req]
    /\ voiceName_of (req_data req) = Some (JString "Puck").
Proof.
  exists (request_of api_key text None). split.
  - now rewrite generate_speech_unfold.
  - reflexivity.
Qed.

(** ** Further properties of the two components *)

(** X1: when the reply carries [inlineData] whose [mimeType] contains
    "audio/L16" or "audio/pcm" and whose data decode to at most [MAX_PCM_LEN]
    bytes, [generate_speech] returns the container of the decoded bytes: the
    44-byte header that declares their length, then the bytes. *)
Theorem raw_pcm_is_wrapped (net : Network) (api_key text : string)
    (voice_name : option string) (sent : list Request)
    (reply inline_data data : json) (mime_type : string) (audio : bytes) :
  answers net sent (request_of api_key text voice_name) reply ->
  inline_data_of reply = Some inline_data ->
  field "data" inline_data = Some data ->
  field "mimeType" inline_data = Some (JString mime_type) ->
  b64decode data = ok audio ->
  str_contains "audio/L16" mime_type || str_contains "audio/pcm" mime_type = true ->
  len audio <= MAX_PCM_LEN ->
  fst (generate_speech net api_key text voice_name sent)
  = (Some (wav_header (len audio) ++ audio), None).
Proof.
  intros Ha Hi Hd Hm Hb Hr Hl.
  rewrite (generate_speech_answered _ _ _ _ _ _ Ha). cbn [fst].
  rewrite (extract_audio_inline_data _ _ _ _ _ Hi Hd Hm Hb).
  cbn [py_in].
  destruct (str_contains "audio/L16" mime_type);
    [|destruct (str_contains "audio/pcm" mime_type); [|discriminate Hr]];
    rewrite !rbind_ok, (convert_l16_to_wav_ok _ Hl); reflexivity.
Qed.

Lemma raw_pcm_is_wrapped_witness :
  fst (generate_speech
         (always (mkResponse 200 "OK" "u" (ok (audio_reply "audio/pcm" "AAEC"))))
         "key" "Hello world" (Some "Kore") [])
  = (Some (wav_header 3 ++ [x00; x01; x02]), None).
Proof.
  apply raw_pcm_is_wrapped
    with (reply := audio_reply "audio/pcm" "AAEC")
         (inline_data := JObject [ ("mimeType", JString "audio/pcm");
                                   ("data", JString "AAEC") ])
         (data := JString "AAEC") (mime_type := "audio/pcm")
         (audio := [x00; x01; x02]).
  - eexists. split; [reflexivity|]. split; reflexivity.
  - reflexivity.
  - reflexivity.
  - reflexivity.
  - reflexivity.
  - reflexivity.
  - vm_compute. discriminate.
Defined.

(** The scenario of the specification.  For the text "Hello world" and
    the voice "Kore", a reply labelled "audio/L16;rate=24000" whose data are
    the base64 text of 48000 null bytes makes [generate_speech] return the
    44-byte header for 48000 bytes followed by the 48000 null bytes, and no
    error. *)
Theorem hello_world_scenario :
  fst (generate_speech
         (always (mkResponse 200 "OK" "u"
            (ok (audio_reply "audio/L16;rate=24000" (quads (Z.to_nat 16000))))))
         "key" "Hello world" (Some "Kore") [])
  = (Some (wav_header 48000 ++ zeros 48000), None).
Proof.
  assert (Hl : len (zeros 48000) = 48000) by (apply len_zeros; lia).
  pose proof (b64decode_quads 16000 ltac:(lia)) as Hb.
  change (3 * 16000) with 48000 in Hb.
  remember (quads (Z.to_nat 16000)) as text64 eqn:Et. clear Et.
  remember (zeros 48000) as pcm eqn:Ep. clear Ep.
  rewrite generate_speech_unfold. cbn [fst].
  unfold always. rewrite rbind_ok.
  change (raise_for_status
            (mkResponse 200 "OK" "u"
               (ok (audio_reply "audio/L16;rate=24000" text64))))
    with (@ok unit tt).
  rewrite rbind_ok. cbn [json_body]. rewrite rbind_ok.
  rewrite (extract_audio_inline_data
             (audio_reply "audio/L16;rate=24000" text64)
             (JObject [ ("mimeType", JString "audio/L16;rate=24000");
                        ("data", JString text64) ])
             (JString text64) (JString "audio/L16;rate=24000") pcm
             (inline_data_of_audio_reply _ _) eq_refl eq_refl Hb).
  change (py_in "audio/L16" (JString "audio/L16;rate=24000")) with (@ok bool true).
  rewrite !rbind_ok.
  rewrite convert_l16_to_wav_ok
    by (rewrite Hl; unfold MAX_PCM_LEN, UINT32_MAX; lia).
  rewrite rbind_ok, Hl. reflexivity.
Qed.

(** X2: the encoder returns a container exactly for the inputs of at most
    [MAX_PCM_LEN] bytes; on every longer input it raises. *)
Theorem encoder_accepts_iff (S : bytes) :
  (exists w, convert_l16_to_wav S = ok w) <-> len S <= MAX_PCM_LEN.
Proof.
  split.
  - intros (w & Hw). destruct (Z.le_gt_cases (len S) MAX_PCM_LEN) as [H|H];
      [exact H|].
    rewrite convert_l16_to_wav_overflow in Hw by lia. discriminate Hw.
  - intros H. eexists. now apply convert_l16_to_wav_ok.
Qed.

(** Every call sends exactly one request, the one built from its
    arguments, whatever the network does with it. *)
Theorem one_request_per_call (net : Network) (api_key text : string)
    (voice_name : option string) (sent : list Request) :
  snd (generate_speech net api_key text voice_name sent)
  = sent ++ [request_of api_key text voice_name].
Proof.
  rewrite generate_speech_unfold.
  destruct (response <- net sent (request_of api_key text voice_name) ;;
            _ <- raise_for_status response ;;
            reply <- json_body response ;;
            extract_audio reply); reflexivity.
Qed.

(** * Beyond the claims *)

(** ** Inverting the steps of the navigation *)

Lemma rbind_inv {A B : Type} (m : result A) (k : A -> result B) (b : B) :
  rbind m k = ok b -> exists a, m = ok a /\ k a = ok b.
Proof. destruct m as [e|a]; cbn; [discriminate | eauto]. Qed.

Lemma getitem_ok (v x : json) (key : string) :
  getitem v key = ok x -> field key v = Some x.
Proof.
  destruct v; cbn; try discriminate.
  destruct (dict_get items key); [intros [= ->]; reflexivity | discriminate].
Qed.

Lemma getitem0_ok (v x : json) :
  getitem0 v = ok x -> first v = Some x \/ exists c, x = JString c.
Proof.
  destruct v as [| | | |s|[|y l]|]; cbn; try discriminate.
  - destruct (chars s); [discriminate|]. intros [= <-]. eauto.
  - intros [= ->]. now left.
Qed.

Lemma get_ok (v x : json) (key : string) :
  get v key = ok x -> truthy x = true -> field key v = Some x.
Proof.
  destruct v; cbn; try discriminate.
  destruct (dict_get items key); intros [= <-]; [reflexivity | discriminate].
Qed.

Lemma field_JString (key s : string) (x : json) : field key (JString s) = Some x -> False.
Proof. discriminate. Qed.

(** Audio comes from the whole path only. *)
Lemma extract_audio_sound (reply : json) (audio : bytes) :
  extract_audio reply = ok (Some audio, None) ->
  exists inline_data data mime_type raw,
    inline_data_of reply = Some inline_data
    /\ truthy inline_data = true
    /\ field "data" inline_data = Some data
    /\ field "mimeType" inline_data = Some mime_type
    /\ b64decode data = ok raw
    /\ ((audio = raw
         /\ py_in "audio/L16" mime_type = ok false
         /\ py_in "audio/pcm" mime_type = ok false)
        \/ (convert_l16_to_wav raw = ok audio
            /\ (py_in "audio/L16" mime_type = ok true
                \/ py_in "audio/pcm" mime_type = ok true))).
Proof.
  unfold extract_audio. intros H.
  apply rbind_inv in H as (has & Hin & H).
  apply rbind_inv in H as (nonempty & Hne & H).
  destruct nonempty; [|discriminate H].
  destruct has; [|discriminate Hne].
  apply rbind_inv in H as (cands & Hc & H).
  apply rbind_inv in H as (cand & Hc0 & H).
  apply rbind_inv in H as (content & Hct & H).
  apply rbind_inv in H as (parts & Hps & H).
  apply rbind_inv in H as (part & Hp0 & H).
  apply rbind_inv in H as (idata & Hid & H).
  destruct (truthy idata) eqn:Ht; [|discriminate H].
  apply rbind_inv in H as (data & Hd & H).
  apply rbind_inv in H as (raw & Hb & H).
  apply rbind_inv in H as (mime & Hm & H).
  apply rbind_inv in H as (is_l16 & Hl & H).
  apply rbind_inv in H as (is_raw & Hr & H).
  apply rbind_inv in H as (out & Ho & H).
  injection H as ->.
  apply getitem_ok in Hc, Hct, Hps, Hd, Hm.
  apply (get_ok _ _ _) in Hid; [|exact Ht].
  apply getitem0_ok in Hc0 as [Hc0|(c & ->)]; [|discriminate Hct].
  apply getitem0_ok in Hp0 as [Hp0|(c & ->)]; [|discriminate Hid].
  exists idata, data, mime, raw.
  split; [|split; [exact Ht|split; [exact Hd|split; [exact Hm|split; [exact Hb|]]]]].
  - unfold inline_data_of, part0, content_of, candidate0.
    rewrite Hc. cbn [and_then]. rewrite Hc0. cbn [and_then]. rewrite Hct.
    cbn [and_then]. rewrite Hps. cbn [and_then]. rewrite Hp0. cbn [and_then].
    exact Hid.
  - destruct is_l16.
    + injection Hr as <-. right. split; [exact Ho | now left].
    + destruct is_raw.
      * right. split; [exact Ho | now right].
      * left. injection Ho as <-. now repeat split.
Qed.

Lemma handle_no_audio (e : exn) (audio : bytes) : handle e <> (Some audio, None).
Proof. unfold handle. destruct (is_RequestException e); discriminate. Qed.

Lemma generate_speech_inv (net : Network) (api_key text : string)
    (voice_name : option string) (sent : list Request)
    (r : option bytes * option string) :
  fst (generate_speech net api_key text voice_name sent) = r ->
  (exists e, r = handle e)
  \/ (exists reply,
        answers net sent (request_of api_key text voice_name) reply
        /\ extract_audio reply = ok r).
Proof.
  rewrite generate_speech_unfold. cbn [fst]. unfold answers.
  destruct (net sent (request_of api_key text voice_name)) as [e|resp] eqn:En;
    cbn [rbind]; [intros <-; eauto|].
  destruct (raise_for_status resp) as [e|[]] eqn:Es;
    cbn [rbind]; [intros <-; eauto|].
  destruct (json_body resp) as [e|reply] eqn:Ej;
    cbn [rbind]; [intros <-; eauto|].
  destruct (extract_audio reply) as [e|r'] eqn:Ee; intros <-; [eauto|].
  right. exists reply. split; [|exact Ee]. exists resp. now repeat split.
Qed.

Lemma prefix_app (p s : string) : String.prefix p (p ++ s) = true.
Proof.
  induction p as [|a p IH]; cbn; [now destruct s|].
  destruct (Ascii.ascii_dec a a) as [_|N]; [exact IH | now destruct N].
Qed.

Lemma a2b_base64_loop_error (s : string) (q l p : Z) (out : bytes) (e : exn) :
  a2b_base64_loop s q l p out = raise e -> is_RequestException e = false.
Proof.
  revert q l p out. induction s as [|c s IH]; intros q l p out; cbn [a2b_base64_loop].
  - destruct (q =? 0); [discriminate|].
    destruct (q =? 1); intros [= <-]; reflexivity.
  - destruct (Ascii.eqb c BASE64_PAD).
    + destruct (2 <=? q); [|apply IH].
      destruct (4 <=? q + (p + 1)); [discriminate | apply IH].
    + destruct (b64_value c); [|apply IH].
      destruct (q =? 0); [apply IH|].
      destruct (q =? 1); [apply IH|].
      destruct (q =? 2); apply IH.
Qed.

Lemma b64decode_error (v : json) (e : exn) :
  b64decode v = raise e -> is_RequestException e = false.
Proof.
  destruct v; cbn [b64decode]; try (intros [= <-]; reflexivity).
  destruct (is_ascii_str s); [apply a2b_base64_loop_error|].
  intros [= <-]. reflexivity.
Qed.

Lemma handle_other (e : exn) :
  is_RequestException e = false -> handle e = (None, Some ("Error: " ++ str e)%string).
Proof. unfold handle. now intros ->. Qed.

(** The navigation from [inlineData] on, for a truthy [inlineData]. *)
Lemma extract_audio_truthy (reply inline_data : json) :
  inline_data_of reply = Some inline_data ->
  truthy inline_data = true ->
  extract_audio reply
  = (data <- getitem inline_data "data" ;;
     audio_data <- b64decode data ;;
     mime_type <- getitem inline_data "mimeType" ;;
     is_l16 <- py_in "audio/L16" mime_type ;;
     is_raw <- (if is_l16 then ok true else py_in "audio/pcm" mime_type) ;;
     audio_data <- (if is_raw then convert_l16_to_wav audio_data else ok audio_data) ;;
     ok (Some audio_data, None)).
Proof.
  intros Hi Ht. unfold inline_data_of in Hi.
  apply and_then_Some in Hi as (p & Hp0 & Hf).
  rewrite (extract_audio_part0 _ _ Hp0).
  apply field_Some in Hf as (pitems & -> & Hpi).
  cbn [get]. rewrite Hpi, rbind_ok, Ht. reflexivity.
Qed.

Lemma field_truthy (key : string) (v x : json) :
  field key v = Some x -> truthy v = true.
Proof.
  destruct v; cbn; try discriminate. destruct items; [discriminate | reflexivity].
Qed.

Lemma error_is_not_empty (net : Network) (api_key text : string)
    (voice_name : option string) (sent : list Request)
    (audio : option bytes) (e : string) :
  fst (generate_speech net api_key text voice_name sent) = (audio, Some e) ->
  str_not e = false.
Proof.
  intros H. apply generate_speech_inv in H as [(e0 & H)|(reply & _ & H)].
  - unfold handle in H. destruct (is_RequestException e0); injection H as _ ->;
      reflexivity.
  - apply extract_audio_shape in H as [(a & H)|H]; [discriminate H|].
    injection H as _ ->. reflexivity.
Qed.

Lemma page_pressed (net : Network) (api_key selected_voice text_input : string)
    (sent : list Request) :
  str_not api_key = false -> str_not text_input = false ->
  page net api_key selected_voice text_input true sent
  = (form api_key text_input
     ++ show_result
          (fst (fst (generate_speech net api_key text_input (Some selected_voice) sent)))
          (snd (fst (generate_speech net api_key text_input (Some selected_voice) sent))),
     sent ++ [request_of api_key text_input (Some selected_voice)]).
Proof.
  intros Hk Ht. unfold page, on_generate. rewrite Hk, Ht.
  rewrite generate_speech_unfold.
  destruct (response <- net sent (request_of api_key text_input (Some selected_voice)) ;;
            _ <- raise_for_status response ;;
            reply <- json_body response ;;
            extract_audio reply) as [e|[a err]]; cbn [fst snd].
  - destruct (handle e). reflexivity.
  - reflexivity.
Qed.

(** ** The container encoder *)

Lemma ok_inj {A : Type} (a b : A) : ok a = ok b -> a = b.
Proof. now intros [= ->]. Qed.

(** X3: the header of every container the encoder returns is consistent with
    the file: 44 bytes before the data, the RIFF length eight bytes short of
    the file, PCM format, the byte rate and the block alignment derived from
    the rate, the channels and the sample width, and the data length the
    rest of the file. *)
Theorem container_layout (S w : bytes) :
  convert_l16_to_wav S = ok w ->
  len w = 44 + len S
  /\ riff_size_field w = len w - 8
  /\ format_tag_field w = WAVE_FORMAT_PCM
  /\ block_align_field w = channel_field w * (bit_depth_field w / 8)
  /\ byte_rate_field w = sample_rate_field w * block_align_field w
  /\ data_size_field w = len w - 44.
Proof.
  intros Hw. pose proof (len_nonneg S) as Hn.
  destruct (Z.le_gt_cases (len S) MAX_PCM_LEN) as [Hb|Hb];
    [|rewrite convert_l16_to_wav_overflow in Hw by exact Hb; discriminate Hw].
  rewrite convert_l16_to_wav_ok in Hw by exact Hb. apply ok_inj in Hw as <-.
  unfold MAX_PCM_LEN, UINT32_MAX in Hb.
  assert (Hl : len (wav_header (len S) ++ S) = 44 + len S).
  { rewrite len_app. reflexivity. }
  rewrite Hl.
  split; [reflexivity|]. split; [|split; [reflexivity|split; [reflexivity|split; [reflexivity|]]]].
  - change (riff_size_field (wav_header (len S) ++ S))
      with (le_value (le_bytes 4 (36 + len S))).
    rewrite le_value_le_bytes_small
      by (change (2 ^ (8 * Z.of_nat 4)) with 4294967296; lia).
    lia.
  - rewrite data_size_field_wav by (unfold UINT32_MAX; lia). lia.
Qed.

Lemma container_layout_witness :
  len (wav_header 3 ++ [x01; x02; x03]) = 44 + len [x01; x02; x03]
  /\ riff_size_field (wav_header 3 ++ [x01; x02; x03])
     = len (wav_header 3 ++ [x01; x02; x03]) - 8
  /\ format_tag_field (wav_header 3 ++ [x01; x02; x03]) = WAVE_FORMAT_PCM
  /\ block_align_field (wav_header 3 ++ [x01; x02; x03])
     = channel_field (wav_header 3 ++ [x01; x02; x03])
       * (bit_depth_field (wav_header 3 ++ [x01; x02; x03]) / 8)
  /\ byte_rate_field (wav_header 3 ++ [x01; x02; x03])
     = sample_rate_field (wav_header 3 ++ [x01; x02; x03])
       * block_align_field (wav_header 3 ++ [x01; x02; x03])
  /\ data_size_field (wav_header 3 ++ [x01; x02; x03])
     = len (wav_header 3 ++ [x01; x02; x03]) - 44.
Proof.
  apply (container_layout [x01; x02; x03]). reflexivity.
Defined.

(** X4: the encoder is injective: two inputs with the same container are the
    same input. *)
Theorem encoder_injective (S1 S2 w : bytes) :
  convert_l16_to_wav S1 = ok w ->
  convert_l16_to_wav S2 = ok w ->
  S1 = S2.
Proof.
  assert (Hd : forall S, convert_l16_to_wav S = ok w -> data_block w = S).
  { intros S Hw.
    destruct (Z.le_gt_cases (len S) MAX_PCM_LEN) as [Hb|Hb];
      [|rewrite convert_l16_to_wav_overflow in Hw by exact Hb; discriminate Hw].
    rewrite convert_l16_to_wav_ok in Hw by exact Hb. apply ok_inj in Hw as <-.
    apply header_fields. }
  intros H1 H2. now rewrite <- (Hd S1 H1), <- (Hd S2 H2).
Qed.

Lemma encoder_injective_witness : [x01; x02] = [x01; x02].
Proof.
  apply (encoder_injective [x01; x02] [x01; x02] (wav_header 2 ++ [x01; x02]));
    reflexivity.
Defined.

(** ** The request component *)

(** X5: audio is returned only from the whole path: when [generate_speech]
    returns audio, the network answered with a status that passes and a reply
    that parses, the reply carries a truthy [inlineData] under
    [candidates[0].content.parts[0]] with a [data] that decodes and a
    [mimeType], and the audio is the decoded bytes (no raw label in the
    [mimeType]) or their container (a raw label). *)
Theorem audio_comes_from_inline_data (net : Network) (api_key text : string)
    (voice_name : option string) (sent : list Request) (audio : bytes) :
  fst (generate_speech net api_key text voice_name sent) = (Some audio, None) ->
  exists reply inline_data data mime_type raw,
    answers net sent (request_of api_key text voice_name) reply
    /\ inline_data_of reply = Some inline_data
    /\ truthy inline_data = true
    /\ field "data" inline_data = Some data
    /\ field "mimeType" inline_data = Some mime_type
    /\ b64decode data = ok raw
    /\ ((audio = raw
         /\ py_in "audio/L16" mime_type = ok false
         /\ py_in "audio/pcm" mime_type = ok false)
        \/ (convert_l16_to_wav raw = ok audio
            /\ (py_in "audio/L16" mime_type = ok true
                \/ py_in "audio/pcm" mime_type = ok true))).
Proof.
  intros H. apply generate_speech_inv in H as [(e & H)|(reply & Ha & H)].
  - symmetry in H. now apply handle_no_audio in H.
  - apply extract_audio_sound in H as (idata & data & mime & raw & H).
    exists reply, idata, data, mime, raw. split; [exact Ha | exact H].
Qed.

Lemma audio_comes_from_inline_data_witness :
  exists reply inline_data data mime_type raw,
    answers (always (mkResponse 200 "OK" "u" (ok (audio_reply "audio/mpeg" "AAEC"))))
      [] (request_of "key" "Hello world" (Some "Kore")) reply
    /\ inline_data_of reply = Some inline_data
    /\ truthy inline_data = true
    /\ field "data" inline_data = Some data
    /\ field "mimeType" inline_data = Some mime_type
    /\ b64decode data = ok raw
    /\ (([x00; x01; x02] = raw
         /\ py_in "audio/L16" mime_type = ok false
         /\ py_in "audio/pcm" mime_type = ok false)
        \/ (convert_l16_to_wav raw = ok [x00; x01; x02]
            /\ (py_in "audio/L16" mime_type = ok true
                \/ py_in "audio/pcm" mime_type = ok true))).
Proof.
  apply (audio_comes_from_inline_data
           (always (mkResponse 200 "OK" "u" (ok (audio_reply "audio/mpeg" "AAEC"))))
           "key" "Hello world" (Some "Kore") [] [x00; x01; x02]).
  reflexivity.
Defined.

(** X6: every error string [generate_speech] returns is "No audio data in
    response" or starts with "API Error: " or with "Error: ". *)
Theorem error_strings (net : Network) (api_key text : string)
    (voice_name : option string) (sent : list Request)
    (audio : option bytes) (error : string) :
  fst (generate_speech net api_key text voice_name sent) = (audio, Some error) ->
  error = no_audio
  \/ String.prefix "API Error: " error = true
  \/ String.prefix "Error: " error = true.
Proof.
  intros H. apply generate_speech_inv in H as [(e & H)|(reply & _ & H)].
  - unfold handle in H. destruct (is_RequestException e); injection H as _ ->.
    + right. left. exact (prefix_app "API Error: " (str e)).
    + right. right. exact (prefix_app "Error: " (str e)).
  - apply extract_audio_shape in H as [(a & H)|H]; [discriminate H|].
    injection H as _ ->. now left.
Qed.

Lemma error_strings_witness :
  "Error: 'content'" = no_audio
  \/ String.prefix "API Error: " "Error: 'content'" = true
  \/ String.prefix "Error: " "Error: 'content'" = true.
Proof.
  apply (error_strings
           (always (mkResponse 200 "OK" "u"
                      (ok (JObject [ ("candidates", JArray [ JObject [] ]) ]))))
           "key" "Hello world" (Some "Kore") [] None).
  reflexivity.
Defined.

(** X7: a reply that is [null], a boolean or a number is no container: the
    test ["candidates" in result] raises, and [generate_speech] returns the
    generic error that names the type. *)
Theorem scalar_reply_is_generic_error (net : Network) (api_key text : string)
    (voice_name : option string) (sent : list Request) (reply : json) :
  answers net sent (request_of api_key text voice_name) reply ->
  is_scalar reply = true ->
  fst (generate_speech net api_key text voice_name sent)
  = (None, Some ("Error: argument of type '" ++ type_name reply
                 ++ "' is not iterable")%string).
Proof.
  intros Ha Hs. rewrite (generate_speech_answered _ _ _ _ _ _ Ha). cbn [fst].
  destruct reply; try discriminate Hs; reflexivity.
Qed.

Lemma scalar_reply_is_generic_error_witness :
  fst (generate_speech (always (mkResponse 200 "OK" "u" (ok JNull)))
         "key" "Hello world" (Some "Kore") [])
  = (None, Some "Error: argument of type 'NoneType' is not iterable").
Proof.
  apply (scalar_reply_is_generic_error
           (always (mkResponse 200 "OK" "u" (ok JNull)))
           "key" "Hello world" (Some "Kore") [] JNull).
  - eexists. split; [reflexivity|]. split; reflexivity.
  - reflexivity.
Defined.

(** X8: an [inlineData] that is present but falsy ([null], an empty object, an
    empty string, zero, [false], an empty list) counts as absent:
    [generate_speech] returns "No audio data in response". *)
Theorem falsy_inline_data_is_no_audio (net : Network) (api_key text : string)
    (voice_name : option string) (sent : list Request) (reply inline_data : json) :
  answers net sent (request_of api_key text voice_name) reply ->
  inline_data_of reply = Some inline_data ->
  truthy inline_data = false ->
  fst (generate_speech net api_key text voice_name sent) = (None, Some no_audio).
Proof.
  intros Ha Hi Ht. rewrite (generate_speech_answered _ _ _ _ _ _ Ha). cbn [fst].
  unfold inline_data_of in Hi.
  apply and_then_Some in Hi as (p & Hp0 & Hf).
  rewrite (extract_audio_part0 _ _ Hp0).
  apply field_Some in Hf as (pitems & -> & Hpi).
  cbn [get]. rewrite Hpi, rbind_ok, Ht. reflexivity.
Qed.

Lemma falsy_inline_data_is_no_audio_witness :
  fst (generate_speech
         (always (mkResponse 200 "OK" "u"
            (ok (JObject
                   [ ("candidates",
                      JArray [ JObject [ ("content",
                        JObject [ ("parts",
                          JArray [ JObject [ ("inlineData", JObject []) ] ]) ]) ] ]) ]))))
         "key" "Hello world" (Some "Kore") [])
  = (None, Some no_audio).
Proof.
  apply falsy_inline_data_is_no_audio
    with (reply := JObject
                   [ ("candidates",
                      JArray [ JObject [ ("content",
                        JObject [ ("parts",
                          JArray [ JObject [ ("inlineData", JObject []) ] ]) ]) ] ]) ])
         (inline_data := JObject []).
  - eexists. split; [reflexivity|]. split; reflexivity.
  - reflexivity.
  - reflexivity.
Defined.

(** X9: data that [base64.b64decode] refuses are reported with the decoder's
    message behind "Error: ", whatever the [mimeType] is and whether or not
    there is one: the data are decoded before the [mimeType] is read. *)
Theorem undecodable_data_reported (net : Network) (api_key text : string)
    (voice_name : option string) (sent : list Request)
    (reply inline_data data : json) (e : exn) :
  answers net sent (request_of api_key text voice_name) reply ->
  inline_data_of reply = Some inline_data ->
  field "data" inline_data = Some data ->
  b64decode data = raise e ->
  fst (generate_speech net api_key text voice_name sent)
  = (None, Some ("Error: " ++ str e)%string).
Proof.
  intros Ha Hi Hd Hb. rewrite (generate_speech_answered _ _ _ _ _ _ Ha). cbn [fst].
  rewrite (extract_audio_truthy _ _ Hi (field_truthy _ _ _ Hd)).
  apply field_Some in Hd as (items & -> & Hdd).
  cbn [getitem]. rewrite Hdd, rbind_ok, Hb. cbn [rbind raise].
  apply handle_other. exact (b64decode_error _ _ Hb).
Qed.

Lemma undecodable_data_reported_witness :
  fst (generate_speech
         (always (mkResponse 200 "OK" "u"
            (ok (JObject
                   [ ("candidates",
                      JArray [ JObject [ ("content",
                        JObject [ ("parts",
                          JArray [ JObject [ ("inlineData",
                            JObject [ ("data", JString "AAE") ]) ] ]) ]) ] ]) ]))))
         "key" "Hello world" (Some "Kore") [])
  = (None, Some "Error: Incorrect padding").
Proof.
  apply undecodable_data_reported
    with (reply := JObject
                   [ ("candidates",
                      JArray [ JObject [ ("content",
                        JObject [ ("parts",
                          JArray [ JObject [ ("inlineData",
                            JObject [ ("data", JString "AAE") ]) ] ]) ]) ] ]) ])
         (inline_data := JObject [ ("data", JString "AAE") ])
         (data := JString "AAE")
         (e := binascii_Error "Incorrect padding").
  - eexists. split; [reflexivity|]. split; reflexivity.
  - reflexivity.
  - reflexivity.
  - reflexivity.
Defined.

(** X10: a truthy [inlineData] without a [data] key is reported as
    "Error: 'data'". *)
Theorem missing_data_key_reported (net : Network) (api_key text : string)
    (voice_name : option string) (sent : list Request) (reply inline_data : json) :
  answers net sent (request_of api_key text voice_name) reply ->
  inline_data_of reply = Some inline_data ->
  truthy inline_data = true ->
  lacks_key "data" inline_data ->
  fst (generate_speech net api_key text voice_name sent)
  = (None, Some "Error: 'data'").
Proof.
  intros Ha Hi Ht Hl. rewrite (generate_speech_answered _ _ _ _ _ _ Ha). cbn [fst].
  rewrite (extract_audio_truthy _ _ Hi Ht).
  apply lacks_key_inv in Hl as (items & -> & Hd).
  cbn [getitem]. rewrite Hd. reflexivity.
Qed.

Lemma missing_data_key_reported_witness :
  fst (generate_speech
         (always (mkResponse 200 "OK" "u"
            (ok (JObject
                   [ ("candidates",
                      JArray [ JObject [ ("content",
                        JObject [ ("parts",
                          JArray [ JObject [ ("inlineData",
                            JObject [ ("mimeType", JString "audio/L16") ]) ] ]) ]) ] ]) ]))))
         "key" "Hello world" (Some "Kore") [])
  = (None, Some "Error: 'data'").
Proof.
  apply missing_data_key_reported
    with (reply := JObject
                   [ ("candidates",
                      JArray [ JObject [ ("content",
                        JObject [ ("parts",
                          JArray [ JObject [ ("inlineData",
                            JObject [ ("mimeType", JString "audio/L16") ]) ] ]) ]) ] ]) ])
         (inline_data := JObject [ ("mimeType", JString "audio/L16") ]).
  - eexists. split; [reflexivity|]. split; reflexivity.
  - reflexivity.
  - reflexivity.
  - reflexivity.
Defined.

(** X11: data that decode, in an [inlineData] without a [mimeType] key, are not
    returned: the lookup is reported as "Error: 'mimeType'". *)
Theorem missing_mime_type_reported (net : Network) (api_key text : string)
    (voice_name : option string) (sent : list Request)
    (reply inline_data data : json) (raw : bytes) :
  answers net sent (request_of api_key text voice_name) reply ->
  inline_data_of reply = Some inline_data ->
  field "data" inline_data = Some data ->
  b64decode data = ok raw ->
  lacks_key "mimeType" inline_data ->
  fst (generate_speech net api_key text voice_name sent)
  = (None, Some "Error: 'mimeType'").
Proof.
  intros Ha Hi Hd Hb Hl. rewrite (generate_speech_answered _ _ _ _ _ _ Ha). cbn [fst].
  rewrite (extract_audio_truthy _ _ Hi (field_truthy _ _ _ Hd)).
  apply lacks_key_inv in Hl as (items & -> & Hm).
  cbn [field] in Hd. cbn [getitem]. rewrite Hd, rbind_ok, Hb, rbind_ok, Hm.
  reflexivity.
Qed.

Lemma missing_mime_type_reported_witness :
  fst (generate_speech
         (always (mkResponse 200 "OK" "u"
            (ok (JObject
                   [ ("candidates",
                      JArray [ JObject [ ("content",
                        JObject [ ("parts",
                          JArray [ JObject [ ("inlineData",
                            JObject [ ("data", JString "AAEC") ]) ] ]) ]) ] ]) ]))))
         "key" "Hello world" (Some "Kore") [])
  = (None, Some "Error: 'mimeType'").
Proof.
  apply missing_mime_type_reported
    with (reply := JObject
                   [ ("candidates",
                      JArray [ JObject [ ("content",
                        JObject [ ("parts",
                          JArray [ JObject [ ("inlineData",
                            JObject [ ("data", JString "AAEC") ]) ] ]) ]) ] ]) ])
         (inline_data := JObject [ ("data", JString "AAEC") ])
         (data := JString "AAEC") (raw := [x00; x01; x02]).
  - eexists. split; [reflexivity|]. split; reflexivity.
  - reflexivity.
  - reflexivity.
  - reflexivity.
  - reflexivity.
Defined.

(** X12: raw audio too long for a container does not escape as an exception:
    when the label is raw and the decoded bytes are more than [MAX_PCM_LEN],
    [generate_speech] returns the [struct.error] message behind "Error: ". *)
Theorem oversized_audio_reported (net : Network) (api_key text : string)
    (voice_name : option string) (sent : list Request)
    (reply inline_data data : json) (mime_type : string) (raw : bytes) :
  answers net sent (request_of api_key text voice_name) reply ->
  inline_data_of reply = Some inline_data ->
  field "data" inline_data = Some data ->
  field "mimeType" inline_data = Some (JString mime_type) ->
  b64decode data = ok raw ->
  str_contains "audio/L16" mime_type || str_contains "audio/pcm" mime_type = true ->
  MAX_PCM_LEN < len raw ->
  fst (generate_speech net api_key text voice_name sent)
  = (None, Some "Error: 'L' format requires 0 <= number <= 4294967295").
Proof.
  intros Ha Hi Hd Hm Hb Hr Hl.
  rewrite (generate_speech_answered _ _ _ _ _ _ Ha). cbn [fst].
  rewrite (extract_audio_inline_data _ _ _ _ _ Hi Hd Hm Hb).
  cbn [py_in].
  destruct (str_contains "audio/L16" mime_type);
    [|destruct (str_contains "audio/pcm" mime_type); [|discriminate Hr]];
    rewrite !rbind_ok, (convert_l16_to_wav_overflow _ Hl); reflexivity.
Qed.

Lemma oversized_audio_reported_witness :
  fst (generate_speech
         (always (mkResponse 200 "OK" "u"
            (ok (audio_reply "audio/L16;rate=24000" (quads (Z.to_nat 1431655754))))))
         "key" "Hello world" (Some "Kore") [])
  = (None, Some "Error: 'L' format requires 0 <= number <= 4294967295").
Proof.
  apply oversized_audio_reported
    with (reply := audio_reply "audio/L16;rate=24000" (quads (Z.to_nat 1431655754)))
         (inline_data :=
            JObject [ ("mimeType", JString "audio/L16;rate=24000");
                      ("data", JString (quads (Z.to_nat 1431655754))) ])
         (data := JString (quads (Z.to_nat 1431655754)))
         (mime_type := "audio/L16;rate=24000")
         (raw := zeros (3 * 1431655754)).
  - eexists. split; [reflexivity|]. split; reflexivity.
  - apply inline_data_of_audio_reply.
  - reflexivity.
  - reflexivity.
  - apply b64decode_quads. lia.
  - reflexivity.
  - rewrite len_zeros by lia. unfold MAX_PCM_LEN, UINT32_MAX. lia.
Defined.

(** ** The page script *)

(** X13: a run sends a request only when the button returned true and both the
    key and the text are non-empty, and then exactly one, built from the key,
    the text and the selected voice. *)
Theorem page_requests (net : Network) (api_key selected_voice text_input : string)
    (pressed : bool) (sent : list Request) :
  snd (page net api_key selected_voice text_input pressed sent)
  = if pressed && negb (str_not api_key) && negb (str_not text_input)
    then sent ++ [request_of api_key text_input (Some selected_voice)]
    else sent.
Proof.
  destruct pressed; [|reflexivity].
  destruct (str_not api_key) eqn:Hk;
    [unfold page, on_generate; now rewrite Hk|].
  destruct (str_not text_input) eqn:Ht;
    [unfold page, on_generate; now rewrite Hk, Ht|].
  now rewrite page_pressed.
Qed.

(** X14: with the key or the text missing the button is rendered disabled, and
    a run in which it returned true all the same sends nothing and shows
    one message below the form: the one about the key when the key is
    missing, whether or not the text is, the one about the text otherwise. *)
Theorem missing_input_stops_the_run (net : Network)
    (api_key selected_voice text_input : string) (sent : list Request) :
  str_not api_key || str_not text_input = true ->
  In (st_button "🎵 Generate Speech" true) (form api_key text_input)
  /\ page net api_key selected_voice text_input true sent
     = (form api_key text_input
        ++ [ st_error (if str_not api_key
                       then "⚠️ Please enter your Gemini API key"
                       else "⚠️ Please enter some text to convert") ],
        sent).
Proof.
  intros H. split.
  - unfold form. rewrite H. apply in_or_app. right. apply in_or_app. right.
    now left.
  - unfold page, on_generate.
    destruct (str_not api_key); [reflexivity|].
    cbn [orb] in H. now rewrite H.
Qed.

Lemma missing_input_stops_the_run_witness :
  In (st_button "🎵 Generate Speech" true) (form "" "")
  /\ page (always (mkResponse 200 "OK" "u" (ok JNull))) "" "Kore" "" true []
     = (form "" "" ++ [ st_error "⚠️ Please enter your Gemini API key" ], []).
Proof.
  apply (missing_input_stops_the_run
           (always (mkResponse 200 "OK" "u" (ok JNull))) "" "Kore" "" []).
  reflexivity.
Defined.

(** X15: with a key and a text, a run in which the button returned true shows
    below the form what [generate_speech] returned: every error string,
    behind a cross; non-empty audio as a success note, a player and a
    download, both given the same bytes and labelled "audio/wav"; and
    nothing at all for empty audio. *)
Theorem page_shows_the_outcome (net : Network)
    (api_key selected_voice text_input : string) (sent : list Request) :
  str_not api_key = false ->
  str_not text_input = false ->
  fst (page net api_key selected_voice text_input true sent)
  = form api_key text_input
    ++ match fst (generate_speech net api_key text_input (Some selected_voice) sent) with
       | (_, Some error) => [ st_error ("❌ " ++ error) ]
       | (Some (b :: audio), None) =>
           [ st_success "✅ Audio generated successfully!";
             st_audio (b :: audio) "audio/wav";
             st_download_button "📥 Download Audio" (b :: audio)
               "gemini_tts_output.wav" "audio/wav" ]
       | _ => []
       end.
Proof.
  intros Hk Ht. rewrite page_pressed by assumption. cbn [fst]. f_equal.
  destruct (fst (generate_speech net api_key text_input (Some selected_voice) sent))
    as [audio [error|]] eqn:E; cbn [fst snd].
  - unfold show_result, error_truthy.
    rewrite (error_is_not_empty _ _ _ _ _ _ _ E).
    destruct audio as [[|b audio]|]; reflexivity.
  - destruct audio as [[|b audio]|]; reflexivity.
Qed.

Lemma page_shows_the_outcome_witness :
  fst (page (always (mkResponse 200 "OK" "u" (ok (audio_reply "audio/mpeg" "AAEC"))))
         "key" "Kore" "Hello world" true [])
  = form "key" "Hello world"
    ++ [ st_success "✅ Audio generated successfully!";
         st_audio [x00; x01; x02] "audio/wav";
         st_download_button "📥 Download Audio" [x00; x01; x02]
           "gemini_tts_output.wav" "audio/wav" ].
Proof.
  apply (page_shows_the_outcome
           (always (mkResponse 200 "OK" "u" (ok (audio_reply "audio/mpeg" "AAEC"))))
           "key" "Kore" "Hello world" []); reflexivity.
Defined.

(** X16: empty audio is shown as nothing: when the reply carries data that decode
    to no byte at all, under a [mimeType] without a raw label,
    [generate_speech] returns the empty bytes with no error, and the run
    renders neither an error nor a player below the form. *)
Theorem empty_audio_shows_nothing (net : Network)
    (api_key selected_voice text_input : string) (sent : list Request)
    (reply inline_data data : json) (mime_type : string) :
  str_not api_key = false ->
  str_not text_input = false ->
  answers net sent (request_of api_key text_input (Some selected_voice)) reply ->
  inline_data_of reply = Some inline_data ->
  field "data" inline_data = Some data ->
  field "mimeType" inline_data = Some (JString mime_type) ->
  b64decode data = ok [] ->
  str_contains "audio/L16" mime_type = false ->
  str_contains "audio/pcm" mime_type = false ->
  fst (generate_speech net api_key text_input (Some selected_voice) sent)
  = (Some [], None)
  /\ fst (page net api_key selected_voice text_input true sent)
     = form api_key text_input.
Proof.
  intros Hk Ht Ha Hi Hd Hm Hb Hl Hp.
  assert (E : fst (generate_speech net api_key text_input (Some selected_voice) sent)
              = (Some [], None)).
  { rewrite (generate_speech_answered _ _ _ _ _ _ Ha). cbn [fst].
    rewrite (extract_audio_inline_data _ _ _ _ _ Hi Hd Hm Hb).
    cbn [py_in]. now rewrite Hl, rbind_ok, Hp. }
  split; [exact E|].
  rewrite page_pressed by assumption. cbn [fst]. rewrite E. cbn [fst snd].
  apply app_nil_r.
Qed.

Lemma empty_audio_shows_nothing_witness :
  fst (generate_speech
         (always (mkResponse 200 "OK" "u" (ok (audio_reply "audio/mpeg" ""))))
         "key" "Hello world" (Some "Kore") [])
  = (Some [], None)
  /\ fst (page (always (mkResponse 200 "OK" "u" (ok (audio_reply "audio/mpeg" ""))))
            "key" "Kore" "Hello world" true [])
     = form "key" "Hello world".
Proof.
  apply empty_audio_shows_nothing
    with (reply := audio_reply "audio/mpeg" "")
         (inline_data := JObject [ ("mimeType", JString "audio/mpeg");
                                   ("data", JString "") ])
         (data := JString "") (mime_type := "audio/mpeg").
  - reflexivity.
  - reflexivity.
  - eexists. split; [reflexivity|]. split; reflexivity.
  - reflexivity.
  - reflexivity.
  - reflexivity.
  - reflexivity.
  - reflexivity.
  - reflexivity.
Defined.

Lemma chars_nonempty (a : ascii) (s : string) : chars (String a s) <> [].
Proof.
  cbn [chars]. destruct (chars s) as [|c cs]; [discriminate|].
  destruct c as [|b c]; [discriminate|].
  destruct (is_continuation b); discriminate.
Qed.

(** X17: the counter and the button agree on what an empty text is: the counter
    is left out exactly for the texts that disable the button, although one
    tests [len(text_input) > 0] and the other [not text_input]. *)
Theorem counter_shown_iff_text (text_input : string) :
  character_counter text_input = [] <-> str_not text_input = true.
Proof.
  unfold character_counter, str_not. destruct text_input as [|a s].
  - split; reflexivity.
  - split; [|discriminate].
    pose proof (chars_nonempty a s) as Hc.
    destruct (chars (String a s)) as [|c cs]; [contradiction|].
    rewrite len_cons_pos. discriminate.
Qed.

(** ** The missing audio field *)

Lemma rbind_raise_inv {A B : Type} (m : result A) (k : A -> result B) (e : exn) :
  rbind m k = raise e -> m = raise e \/ exists a, m = ok a /\ k a = raise e.
Proof. destruct m as [e'|a]; cbn; [intros [= ->]; now left | eauto]. Qed.

Lemma py_in_error (needle : string) (v : json) (e : exn) :
  py_in needle v = raise e -> is_RequestException e = false.
Proof. destruct v; cbn; try discriminate; intros [= <-]; reflexivity. Qed.

Lemma py_len_error (v : json) (e : exn) :
  py_len v = raise e -> is_RequestException e = false.
Proof. destruct v; cbn; try discriminate; intros [= <-]; reflexivity. Qed.

Lemma getitem_error (v : json) (key : string) (e : exn) :
  getitem v key = raise e -> is_RequestException e = false.
Proof.
  destruct v; cbn; try (intros [= <-]; reflexivity).
  destruct (dict_get items key); [discriminate | intros [= <-]; reflexivity].
Qed.

Lemma getitem0_error (v : json) (e : exn) :
  getitem0 v = raise e -> is_RequestException e = false.
Proof.
  destruct v as [| | | |s|[|x l]|]; cbn; try (intros [= <-]; reflexivity);
    try discriminate.
  destruct (chars s); [intros [= <-]; reflexivity | discriminate].
Qed.

Lemma get_error (v : json) (key : string) (e : exn) :
  get v key = raise e -> is_RequestException e = false.
Proof. destruct v; cbn; try discriminate; intros [= <-]; reflexivity. Qed.

Lemma convert_l16_to_wav_error (S : bytes) (e : exn) :
  convert_l16_to_wav S = raise e -> is_RequestException e = false.
Proof.
  destruct (Z.le_gt_cases (len S) MAX_PCM_LEN) as [Hb|Hb].
  - rewrite convert_l16_to_wav_ok by exact Hb. discriminate.
  - rewrite convert_l16_to_wav_overflow by exact Hb. intros [= <-]. reflexivity.
Qed.

(** No step of the navigation raises a [RequestException]: what it raises
    goes to the second [except] clause. *)
Lemma extract_audio_error (reply : json) (e : exn) :
  extract_audio reply = raise e -> is_RequestException e = false.
Proof.
  unfold extract_audio. intros H.
  apply rbind_raise_inv in H as [H|(has & _ & H)]; [exact (py_in_error _ _ _ H)|].
  apply rbind_raise_inv in H as [H|(nonempty & _ & H)].
  { destruct has; [|discriminate H].
    apply rbind_raise_inv in H as [H|(c & _ & H)]; [exact (getitem_error _ _ _ H)|].
    apply rbind_raise_inv in H as [H|(n & _ & H)]; [exact (py_len_error _ _ H)|].
    discriminate H. }
  destruct nonempty; [|discriminate H].
  apply rbind_raise_inv in H as [H|(cands & _ & H)]; [exact (getitem_error _ _ _ H)|].
  apply rbind_raise_inv in H as [H|(cand & _ & H)]; [exact (getitem0_error _ _ H)|].
  apply rbind_raise_inv in H as [H|(content & _ & H)]; [exact (getitem_error _ _ _ H)|].
  apply rbind_raise_inv in H as [H|(parts & _ & H)]; [exact (getitem_error _ _ _ H)|].
  apply rbind_raise_inv in H as [H|(part & _ & H)]; [exact (getitem0_error _ _ H)|].
  apply rbind_raise_inv in H as [H|(idata & _ & H)]; [exact (get_error _ _ _ H)|].
  destruct (truthy idata); [|discriminate H].
  apply rbind_raise_inv in H as [H|(data & _ & H)]; [exact (getitem_error _ _ _ H)|].
  apply rbind_raise_inv in H as [H|(raw & _ & H)]; [exact (b64decode_error _ _ H)|].
  apply rbind_raise_inv in H as [H|(mime & _ & H)]; [exact (getitem_error _ _ _ H)|].
  apply rbind_raise_inv in H as [H|(is_l16 & _ & H)]; [exact (py_in_error _ _ _ H)|].
  apply rbind_raise_inv in H as [H|(is_raw & _ & H)].
  { destruct is_l16; [discriminate H | exact (py_in_error _ _ _ H)]. }
  apply rbind_raise_inv in H as [H|(out & _ & H)]; [|discriminate H].
  destruct is_raw; [exact (convert_l16_to_wav_error _ _ H) | discriminate H].
Qed.

(** Each of the six typed ways to stop is a way for the strict path to
    lead nowhere. *)
Lemma lacks_audio_absent (m : missing) (reply : json) :
  lacks_audio m reply -> inline_data_of reply = None.
Proof.
  unfold inline_data_of, part0, content_of, candidate0.
  destruct m; cbn [lacks_audio].
  - intros H. apply lacks_key_inv in H as (items & -> & Hd).
    cbn [field]. now rewrite Hd.
  - intros H. now rewrite H.
  - intros (c & Hc & H). unfold candidate0 in Hc. rewrite Hc. cbn [and_then].
    apply lacks_key_inv in H as (items & -> & Hd). cbn [field]. now rewrite Hd.
  - intros (ct & Hc & H). unfold content_of, candidate0 in Hc. rewrite Hc.
    cbn [and_then].
    apply lacks_key_inv in H as (items & -> & Hd). cbn [field]. now rewrite Hd.
  - intros (ct & Hc & H). unfold content_of, candidate0 in Hc. rewrite Hc.
    cbn [and_then]. now rewrite H.
  - intros (p & Hp & H). unfold part0, content_of, candidate0 in Hp. rewrite Hp.
    cbn [and_then].
    apply lacks_key_inv in H as (items & -> & Hd). cbn [field]. now rewrite Hd.
Qed.

Lemma extract_audio_absent (reply : json) :
  inline_data_of reply = None ->
  exists error,
    match extract_audio reply with inr r => r | inl e => handle e end
    = (None, Some error)
    /\ (error = no_audio \/ String.prefix "Error: " error = true).
Proof.
  intros Hn. destruct (extract_audio reply) as [e|r] eqn:E.
  - rewrite (handle_other _ (extract_audio_error _ _ E)).
    eexists. split; [reflexivity|]. right. exact (prefix_app "Error: " (str e)).
  - apply extract_audio_shape in E as E'. destruct E' as [(audio & ->)| ->].
    + apply extract_audio_sound in E as (idata & _ & _ & _ & Hi & _).
      rewrite Hn in Hi. discriminate Hi.
    + exists no_audio. split; [reflexivity | now left].
Qed.

(** C4, as amended: when the reply parses and the path
    [candidates[0].content.parts[0].inlineData] leads to no value, because a
    component is missing or is not of the type the path needs (the reply
    itself included), [generate_speech] returns no audio and, after one
    request, an error string that is "No audio data in response" or starts
    with "Error: ".  When every component before the missing one is of the
    expected type, the string is "No audio data in response" if the reply
    object has no [candidates] key, the candidates list is empty or the
    [parts[0]] object has no [inlineData]; it is "Error: 'content'",
    "Error: 'parts'" or "Error: list index out of range" if the
    [candidates[0]] object has no [content], the content object has no
    [parts] or the parts list is empty. *)
Theorem missing_component_reported (net : Network) (api_key text : string)
    (voice_name : option string) (sent : list Request) (reply : json) :
  answers net sent (request_of api_key text voice_name) reply ->
  inline_data_of reply = None ->
  exists error,
    generate_speech net api_key text voice_name sent
    = ((None, Some error), sent ++ [request_of api_key text voice_name])
    /\ (error = no_audio \/ String.prefix "Error: " error = true)
    /\ (forall m, lacks_audio m reply -> (None, Some error) = returned_when m).
Proof.
  intros Ha Hn. rewrite (generate_speech_answered _ _ _ _ _ _ Ha).
  destruct (extract_audio_absent reply Hn) as (error & E & Hf).
  exists error. rewrite E. split; [reflexivity|]. split; [exact Hf|].
  intros m Hm. rewrite <- E. exact (extract_audio_missing m reply Hm).
Qed.

Lemma missing_component_reported_witness :
  exists error,
    generate_speech
      (always (mkResponse 200 "OK" "u"
                 (ok (JObject [ ("candidates", JObject [ ("a", JInt 1) ]) ]))))
      "key" "Hello world" (Some "Kore") []
    = ((None, Some error), [] ++ [request_of "key" "Hello world" (Some "Kore")])
    /\ (error = no_audio \/ String.prefix "Error: " error = true)
    /\ (forall m,
          lacks_audio m (JObject [ ("candidates", JObject [ ("a", JInt 1) ]) ]) ->
          (None, Some error) = returned_when m).
Proof.
  apply (missing_component_reported
           (always (mkResponse 200 "OK" "u"
                      (ok (JObject [ ("candidates", JObject [ ("a", JInt 1) ]) ]))))
           "key" "Hello world" (Some "Kore") []
           (JObject [ ("candidates", JObject [ ("a", JInt 1) ]) ])).
  - eexists. split; [reflexivity|]. split; reflexivity.
  - reflexivity.
Defined.
